(** * Aesthetic Calculator: the engine of [static/js/calculator.js]

    A shallow embedding of the [Calculator] class and of the JavaScript
    primitives it calls ([parseFloat], [String], [Math.round],
    [Number.prototype.toExponential], [Number.prototype.toLocaleString]),
    followed by the properties of the engine.

    JavaScript numbers are IEEE-754 binary64 values; they are modelled with
    the executable specification [SpecFloat] of the Standard Library at
    precision 53 and maximal exponent 1024.  Strings are sequences of
    bytes, UTF-8 for the characters beyond ASCII.  Decimal text is
    converted to the nearest number (ties to even), [String(x)] prints the
    shortest digits that convert back to [x], [toExponential] rounds the
    exact value of the number, and [toLocaleString] rounds its shortest
    digits, as the runtime does. *)

From Stdlib Require Import ZArith List Bool Ascii String Lia.
From Stdlib Require Import Floats.SpecFloat.
Import ListNotations.

Local Open Scope string_scope.
Local Open Scope Z_scope.

(* ================================================================== *)
(** * The JavaScript primitives used by the calculator *)
(* ================================================================== *)

Module JS.

(** ** Numbers *)

Definition number := spec_float.

Definition prec : Z := 53.
Definition emax : Z := 1024.

Definition NaN : number := S754_nan.

Definition add : number -> number -> number := SFadd prec emax.
Definition sub : number -> number -> number := SFsub prec emax.
Definition mul : number -> number -> number := SFmul prec emax.
Definition div : number -> number -> number := SFdiv prec emax.

(** [isNaN]. *)
Definition isNaN (x : number) : bool :=
  match x with S754_nan => true | _ => false end.

(** [x === y] on numbers: [NaN] differs from everything, [+0 === -0]. *)
Definition strict_eq (x y : number) : bool := SFeqb x y.
Definition lt (x y : number) : bool := SFltb x y.
Definition ge (x y : number) : bool := SFleb y x.
Definition abs (x : number) : number := SFabs x.

(** The number nearest to the integer [z] (ties to even). *)
Definition of_Z (z : Z) : number := binary_normalize prec emax z 0 false.

(** The number nearest to the rational [p / q], for [0 <= p] and [0 < q],
    with sign [neg]: the quotient is computed exactly, with the position
    of the remainder, and rounded once (ties to even). *)
Definition of_ratio (neg : bool) (p q : Z) : number :=
  match p with
  | Z0 => S754_zero neg
  | _ =>
    let '(mz, ez, lz) := SFdiv_core_binary prec emax p 0 q 0 in
    binary_round_aux prec emax neg mz ez lz
  end.

(** The number nearest to [m * 10^e], for [0 <= m], with sign [neg]. *)
Definition of_decimal (neg : bool) (m e : Z) : number :=
  if 0 <=? e then of_ratio neg (m * 10 ^ e) 1
  else of_ratio neg m (10 ^ (- e)).

(** The canonical representation of a number (the operations of
    [SpecFloat] return canonical values; this is the identity on them). *)
Definition canon (x : number) : number := SFldexp prec emax x 0.

Definition number_eqb (x y : number) : bool :=
  match x, y with
  | S754_zero a, S754_zero b => Bool.eqb a b
  | S754_infinity a, S754_infinity b => Bool.eqb a b
  | S754_nan, S754_nan => true
  | S754_finite a m e, S754_finite b n f =>
      Bool.eqb a b && Pos.eqb m n && Z.eqb e f
  | _, _ => false
  end.

(** [Number.EPSILON]: the difference between 1 and the next number. *)
Definition EPSILON : number := S754_finite false 4503599627370496 (-104).

(** ** [Math.round]: floor (x + 1/2), computed exactly; a zero result keeps
    the sign of [x]. *)
Definition Math_round (x : number) : number :=
  match x with
  | S754_finite s m e =>
      if 0 <=? e then x
      else
        let q := 2 ^ (- e) in
        let num := if s then Z.neg m else Z.pos m in
        let r := (2 * num + q) / (2 * q) in
        binary_normalize prec emax r 0 s
  | _ => x
  end.

(** ** Decimal digits *)

Definition digit_char (d : Z) : ascii := ascii_of_nat (48 + Z.to_nat d).

Definition is_digit (c : ascii) : bool :=
  ((48 <=? nat_of_ascii c) && (nat_of_ascii c <=? 57))%nat.

Definition digit_val (c : ascii) : Z := Z.of_nat (nat_of_ascii c) - 48.

(** The [k] low decimal digits of [s], most significant first. *)
Fixpoint digits_fixed (k : nat) (s : Z) : string :=
  match k with
  | O => EmptyString
  | S k' => String (digit_char ((s / 10 ^ Z.of_nat k') mod 10)) (digits_fixed k' s)
  end.

(** Number of decimal digits of [z] (1 for [z <= 9]). *)
Fixpoint num_digits_aux (fuel : nat) (z : Z) : nat :=
  match fuel with
  | O => 1%nat
  | S f => if z <? 10 then 1%nat else S (num_digits_aux f (z / 10))
  end.

Definition num_digits (z : Z) : nat :=
  num_digits_aux (S (Z.to_nat (Z.log2 z))) z.

(** Decimal notation of a non-negative integer. *)
Definition Z_to_string (z : Z) : string := digits_fixed (num_digits z) z.

Fixpoint zeros (n : nat) : string :=
  match n with
  | O => EmptyString
  | S n' => String "0" (zeros n')
  end.

(** ** [parseFloat] on a string

    Leading white space is skipped; the longest prefix that is a decimal
    literal (optional sign, then [Infinity] or digits with an optional
    point and an optional complete exponent part) is converted to the
    nearest number; [NaN] when there is no such prefix. *)

(** The white space and line terminators of one byte: tab, line feed,
    vertical tab, form feed, carriage return and space. *)
Definition is_space (c : ascii) : bool :=
  let n := nat_of_ascii c in
  ((n =? 9) || (n =? 10) || (n =? 11) || (n =? 12) || (n =? 13) || (n =? 32))%nat.

(** Of two bytes: U+00A0. *)
Definition is_space2 (a b : ascii) : bool :=
  ((nat_of_ascii a =? 194) && (nat_of_ascii b =? 160))%nat.

(** Of three bytes: U+1680, U+2000 to U+200A, U+2028, U+2029, U+202F,
    U+205F, U+3000 and U+FEFF. *)
Definition is_space3 (a b c : ascii) : bool :=
  let x := nat_of_ascii a in
  let y := nat_of_ascii b in
  let z := nat_of_ascii c in
  (((x =? 225) && (y =? 154) && (z =? 128))
   || ((x =? 226) && (y =? 128)
       && (((128 <=? z) && (z <=? 138)) || (z =? 168) || (z =? 169) || (z =? 175)))
   || ((x =? 226) && (y =? 129) && (z =? 159))
   || ((x =? 227) && (y =? 128) && (z =? 128))
   || ((x =? 239) && (y =? 187) && (z =? 191)))%nat.

Fixpoint skip_spaces (s : string) : string :=
  match s with
  | String a r =>
      if is_space a then skip_spaces r
      else
        match r with
        | String b r2 =>
            if is_space2 a b then skip_spaces r2
            else
              match r2 with
              | String c r3 => if is_space3 a b c then skip_spaces r3 else s
              | EmptyString => s
              end
        | EmptyString => s
        end
  | EmptyString => s
  end.

(** Reads the longest run of digits of [s], appending them to the value
    [acc]; returns the value, the number of digits read added to [n], and
    the rest of the string. *)
Fixpoint read_digits (s : string) (acc n : Z) : Z * Z * string :=
  match s with
  | String c r =>
      if is_digit c then read_digits r (10 * acc + digit_val c) (n + 1)
      else (acc, n, s)
  | EmptyString => (acc, n, s)
  end.

(** The value of the exponent part at the head of [s]; 0 when there is no
    complete exponent part. *)
Definition read_exponent (s : string) : Z :=
  match s with
  | String c r =>
      if ((c =? "e") || (c =? "E"))%char then
        let '(neg, r') :=
          match r with
          | String "-"%char r' => (true, r')
          | String "+"%char r' => (false, r')
          | _ => (false, r)
          end in
        let '(v, n, _) := read_digits r' 0 0 in
        if n =? 0 then 0 else if neg then - v else v
      else 0
  | EmptyString => 0
  end.

Definition read_unsigned (neg : bool) (s : string) : number :=
  if prefix "Infinity" s then S754_infinity neg
  else
    let '(i, ni, r1) := read_digits s 0 0 in
    match r1 with
    | String "."%char r2 =>
        let '(m, nf, r3) := read_digits r2 i 0 in
        if ni + nf =? 0 then NaN
        else of_decimal neg m (read_exponent r3 - nf)
    | _ =>
        if ni =? 0 then NaN else of_decimal neg i (read_exponent r1)
    end.

Definition parseFloat (s : string) : number :=
  match skip_spaces s with
  | String "-"%char r => read_unsigned true r
  | String "+"%char r => read_unsigned false r
  | r => read_unsigned false r
  end.

(** ** [String(x)] on a number (Number::toString, radix 10) *)

(** The value [m * 2^e] as a fraction. *)
Definition ratio_of (m : positive) (e : Z) : Z * Z :=
  if 0 <=? e then (Z.pos m * 2 ^ e, 1) else (Z.pos m, 2 ^ (- e)).

(** The fraction [p / q] multiplied by [10 ^ sh]. *)
Definition scaled (p q sh : Z) : Z * Z :=
  if 0 <=? sh then (p * 10 ^ sh, q) else (p, q * 10 ^ (- sh)).

Fixpoint scale_up (fuel : nat) (p q j : Z) : Z :=
  match fuel with
  | O => j
  | S f => if q <=? p then j else scale_up f (10 * p) q (j + 1)
  end.

(** The [n] with [10^(n-1) <= p / q < 10^n], for positive [p] and [q]. *)
Definition magnitude10 (p q : Z) : Z :=
  if q <=? p then Z.of_nat (num_digits (p / q))
  else 1 - scale_up (S (Z.to_nat (Z.log2 q))) (10 * p) q 1.

Definition in_range (k s : Z) : bool :=
  (10 ^ (k - 1) <=? s) && (s <? 10 ^ k).

(** Does the decimal [s * 10^(n-k)] convert back to [v]? *)
Definition round_trips (v : number) (s k n : Z) : bool :=
  in_range k s && number_eqb (of_decimal false s (n - k)) v.

(** The [k]-digit decimals [s * 10^(n'-k)] that convert back to [v], if
    any: the one closest to [p / q], the even one in a tie.  Only the two
    [k]-digit decimals around [p / q] can qualify. *)
Definition shortest_at (v : number) (p q n k : Z) : option (Z * Z) :=
  let '(P, Q) := scaled p q (k - n) in
  let lo := P / Q in
  let '(hi, nhi) :=
    if lo + 1 =? 10 ^ k then (10 ^ (k - 1), n + 1) else (lo + 1, n) in
  match round_trips v lo k n, round_trips v hi k nhi with
  | true, true =>
      match 2 * (P - lo * Q) ?= Q with
      | Lt => Some (lo, n)
      | Gt => Some (hi, nhi)
      | Eq => if Z.even lo then Some (lo, n) else Some (hi, nhi)
      end
  | true, false => Some (lo, n)
  | false, true => Some (hi, nhi)
  | false, false => None
  end.

(** Searches the least number of digits [k] from [k] on.  Seventeen
    digits always identify a binary64 number, so the last case (the
    truncated digits) is there for totality only. *)
Fixpoint shortest_from (fuel : nat) (v : number) (p q n k : Z) : Z * Z * Z :=
  match fuel with
  | O =>
      let '(P, Q) := scaled p q (k - n) in
      (Z.max (10 ^ (k - 1)) (Z.min (P / Q) (10 ^ k - 1)), k, n)
  | S f =>
      match shortest_at v p q n k with
      | Some (s, n') => (s, k, n')
      | None => shortest_from f v p q n (k + 1)
      end
  end.

(** The digits [s], their number [k] and the decimal exponent [n] of the
    positive number [m * 2^e]: [k] is as small as possible with
    [10^(k-1) <= s < 10^k] and [s * 10^(n-k)] converting back to the
    number. *)
Definition shortest (m : positive) (e : Z) : Z * Z * Z :=
  let '(p, q) := ratio_of m e in
  shortest_from 17 (canon (S754_finite false m e)) p q (magnitude10 p q) 1.

Definition exponent_string (e : Z) : string :=
  (if e <? 0 then "-" else "+") ++ Z_to_string (Z.abs e).

Definition format_shortest (s k n : Z) : string :=
  let ds := digits_fixed (Z.to_nat k) s in
  if (k <=? n) && (n <=? 21) then ds ++ zeros (Z.to_nat (n - k))
  else if (0 <? n) && (n <=? 21) then
    substring 0 (Z.to_nat n) ds ++ "." ++ substring (Z.to_nat n) (Z.to_nat (k - n)) ds
  else if (-6 <? n) && (n <=? 0) then "0." ++ zeros (Z.to_nat (- n)) ++ ds
  else if k =? 1 then ds ++ "e" ++ exponent_string (n - 1)
  else
    substring 0 1 ds ++ "." ++ substring 1 (Z.to_nat (k - 1)) ds
      ++ "e" ++ exponent_string (n - 1).

Definition toString (x : number) : string :=
  match x with
  | S754_nan => "NaN"
  | S754_zero _ => "0"
  | S754_infinity neg => if neg then "-Infinity" else "Infinity"
  | S754_finite neg m e =>
      let '(s, k, n) := shortest m e in
      (if neg then "-" else "") ++ format_shortest s k n
  end.

(** ** [x.toExponential(f)]

    One digit, a point and [f] digits, then the exponent; the digits are
    those of the integer [n] with [10^f <= n < 10^(f+1)] for which
    [n * 10^(e-f)] is closest to [x], the larger one in a tie. *)
Definition toExponential (f : nat) (x : number) : string :=
  let fz := Z.of_nat f in
  let point := match f with O => "" | _ => "." end in
  match x with
  | S754_nan => "NaN"
  | S754_infinity neg => if neg then "-Infinity" else "Infinity"
  | S754_zero _ => "0" ++ point ++ zeros f ++ "e+0"
  | S754_finite neg m e =>
      let '(p, q) := ratio_of m e in
      let e10 := magnitude10 p q - 1 in
      let '(P, Q) := scaled p q (fz - e10) in
      let n := (2 * P + Q) / (2 * Q) in
      let '(n, e10) := if n =? 10 ^ (fz + 1) then (10 ^ fz, e10 + 1) else (n, e10) in
      let ds := digits_fixed (S f) n in
      (if neg then "-" else "")
        ++ substring 0 1 ds ++ point ++ substring 1 f ds
        ++ "e" ++ exponent_string e10
  end.

(** ** [x.toLocaleString('en-US', {maximumFractionDigits: f, useGrouping: false})]

    The shortest decimal notation of [x], the digits of [String(x)],
    rounded to [f] digits after the point, half away from zero, without
    trailing zeros in the fraction (locale en-US: point as separator,
    plain minus sign). *)
Fixpoint strip_trailing_zeros (s : string) : string :=
  match s with
  | EmptyString => EmptyString
  | String c r =>
      match strip_trailing_zeros r with
      | EmptyString => if (c =? "0")%char then EmptyString else String c EmptyString
      | r' => String c r'
      end
  end.

Definition toLocaleString (f : nat) (x : number) : string :=
  match x with
  | S754_nan => "NaN"
  | S754_infinity neg => (if neg then "-" else "") ++ "∞"
  | S754_zero neg => (if neg then "-" else "") ++ "0"
  | S754_finite neg m e =>
      let '(s, k, n10) := shortest m e in
      let '(p, q) := scaled s 1 (n10 - k) in
      let scale := 10 ^ Z.of_nat f in
      let n := (2 * p * scale + q) / (2 * q) in
      let frac := strip_trailing_zeros (digits_fixed f (n mod scale)) in
      (if neg then "-" else "") ++ Z_to_string (n / scale)
        ++ match frac with EmptyString => "" | _ => "." ++ frac end
  end.

End JS.

(* ================================================================== *)
(** * The [Calculator] class *)
(* ================================================================== *)

(** The values held by [this.previousInput]: the empty string or a number
    (and [parseFloat] and [formatNumber] accept both). *)
Inductive value :=
  | VString (s : string)
  | VNumber (x : JS.number).

(** [v === ''] *)
Definition is_empty_string (v : value) : bool :=
  match v with
  | VString EmptyString => true
  | _ => false
  end.

(** [parseFloat(v)]: a number argument is first converted to a string. *)
Definition parseFloat (v : value) : JS.number :=
  match v with
  | VString s => JS.parseFloat s
  | VNumber x => JS.parseFloat (JS.toString x)
  end.

(** The operator actions, the values of [this.operator] other than
    [null]. *)
Inductive operator_name := add | subtract | multiply | divide.

(** The actions of the buttons and keys ([data-action]). *)
Inductive action :=
  | Operator (op : operator_name)
  | Equals
  | Decimal
  | Clear
  | ClearAll
  | Backspace.

(** The digits of the number buttons and keys ([data-number]). *)
Inductive digit := D0 | D1 | D2 | D3 | D4 | D5 | D6 | D7 | D8 | D9.

Definition digit_string (d : digit) : string :=
  match d with
  | D0 => "0" | D1 => "1" | D2 => "2" | D3 => "3" | D4 => "4"
  | D5 => "5" | D6 => "6" | D7 => "7" | D8 => "8" | D9 => "9"
  end.

(** A display element: its text and whether its class list holds
    [display-error]. *)
Record element := mkElement {
  textContent : string;
  display_error : bool
}.

(** The object state; [timeouts] counts the pending [setTimeout]
    callbacks of [showError]. *)
Record Calculator := mkCalculator {
  displayPrimary : element;
  displaySecondary : element;
  currentInput : string;
  previousInput : value;
  operator : option operator_name;
  waitingForOperand : bool;
  justCalculated : bool;
  timeouts : nat
}.

Definition set_displayPrimary (e : element) (c : Calculator) : Calculator :=
  mkCalculator e (displaySecondary c) (currentInput c) (previousInput c)
    (operator c) (waitingForOperand c) (justCalculated c) (timeouts c).

Definition set_displaySecondary (e : element) (c : Calculator) : Calculator :=
  mkCalculator (displayPrimary c) e (currentInput c) (previousInput c)
    (operator c) (waitingForOperand c) (justCalculated c) (timeouts c).

Definition set_currentInput (s : string) (c : Calculator) : Calculator :=
  mkCalculator (displayPrimary c) (displaySecondary c) s (previousInput c)
    (operator c) (waitingForOperand c) (justCalculated c) (timeouts c).

Definition set_previousInput (v : value) (c : Calculator) : Calculator :=
  mkCalculator (displayPrimary c) (displaySecondary c) (currentInput c) v
    (operator c) (waitingForOperand c) (justCalculated c) (timeouts c).

Definition set_operator (o : option operator_name) (c : Calculator) : Calculator :=
  mkCalculator (displayPrimary c) (displaySecondary c) (currentInput c)
    (previousInput c) o (waitingForOperand c) (justCalculated c) (timeouts c).

Definition set_waitingForOperand (b : bool) (c : Calculator) : Calculator :=
  mkCalculator (displayPrimary c) (displaySecondary c) (currentInput c)
    (previousInput c) (operator c) b (justCalculated c) (timeouts c).

Definition set_justCalculated (b : bool) (c : Calculator) : Calculator :=
  mkCalculator (displayPrimary c) (displaySecondary c) (currentInput c)
    (previousInput c) (operator c) (waitingForOperand c) b (timeouts c).

Definition set_timeouts (n : nat) (c : Calculator) : Calculator :=
  mkCalculator (displayPrimary c) (displaySecondary c) (currentInput c)
    (previousInput c) (operator c) (waitingForOperand c) (justCalculated c) n.

Definition set_textContent (s : string) (e : element) : element :=
  mkElement s (display_error e).

(** ** Display *)

Definition getOperatorSymbol (o : option operator_name) : string :=
  match o with
  | Some add => "+"
  | Some subtract => "−"
  | Some multiply => "×"
  | Some divide => "÷"
  | None => ""
  end.

Definition zero : JS.number := S754_zero false.
Definition lit_1e10 : JS.number := JS.of_decimal false 1 10.
Definition lit_1e_6 : JS.number := JS.of_decimal false 1 (-6).
Definition lit_100000000 : JS.number := JS.of_decimal false 100000000 0.

Definition formatNumber (num : value) : string :=
  let number := parseFloat num in
  if JS.isNaN number then "0"
  else if JS.ge (JS.abs number) lit_1e10
          || (JS.lt (JS.abs number) lit_1e_6 && negb (JS.strict_eq number zero))
  then JS.toExponential 6 number
  else JS.toLocaleString 8 number.

Definition updateDisplay (c : Calculator) : Calculator :=
  set_displayPrimary (mkElement (formatNumber (VString (currentInput c))) false) c.

(** [this.operator && this.previousInput !== ''] *)
Definition has_pending (c : Calculator) : bool :=
  match operator c with
  | Some _ => negb (is_empty_string (previousInput c))
  | None => false
  end.

Definition updateSecondaryDisplay (showResult : bool) (c : Calculator) : Calculator :=
  if showResult && has_pending c then
    set_displaySecondary
      (set_textContent
         (formatNumber (previousInput c) ++ " " ++ getOperatorSymbol (operator c)
            ++ " " ++ formatNumber (VString (currentInput c)) ++ " =")
         (displaySecondary c)) c
  else if has_pending c then
    set_displaySecondary
      (set_textContent
         (formatNumber (previousInput c) ++ " " ++ getOperatorSymbol (operator c))
         (displaySecondary c)) c
  else c.

Definition clearSecondaryDisplay (c : Calculator) : Calculator :=
  set_displaySecondary (set_textContent "" (displaySecondary c)) c.

Definition showError (message : string) (c : Calculator) : Calculator :=
  set_timeouts (S (timeouts c))
    (set_displaySecondary (set_textContent message (displaySecondary c))
       (set_displayPrimary (mkElement "Error" true) c)).

(** ** Input *)

Definition inputNumber (d : string) (c : Calculator) : Calculator :=
  updateDisplay
    (if waitingForOperand c then
       set_waitingForOperand false (set_currentInput d c)
     else if justCalculated c then
       clearSecondaryDisplay (set_justCalculated false (set_currentInput d c))
     else
       set_currentInput
         (if (currentInput c =? "0")%string then d else currentInput c ++ d) c).

Definition inputDecimal (c : Calculator) : Calculator :=
  updateDisplay
    (if waitingForOperand c then
       set_waitingForOperand false (set_currentInput "0." c)
     else if justCalculated c then
       clearSecondaryDisplay (set_justCalculated false (set_currentInput "0." c))
     else
       match index 0 "." (currentInput c) with
       | None => set_currentInput (currentInput c ++ ".") c
       | Some _ => c
       end).

(** ** Evaluation *)

(** Returns the result, [None] for [null], and the state (changed by
    [showError] only). *)
Definition performCalculation (c : Calculator) : option JS.number * Calculator :=
  let prev := parseFloat (previousInput c) in
  let current := parseFloat (VString (currentInput c)) in
  if JS.isNaN prev || JS.isNaN current then (None, c)
  else
    let rounded (result : JS.number) :=
      (Some (JS.div (JS.Math_round (JS.mul (JS.add result JS.EPSILON) lit_100000000))
               lit_100000000), c) in
    match operator c with
    | Some add => rounded (JS.add prev current)
    | Some subtract => rounded (JS.sub prev current)
    | Some multiply => rounded (JS.mul prev current)
    | Some divide =>
        if JS.strict_eq current zero
        then (None, showError "Cannot divide by zero" c)
        else rounded (JS.div prev current)
    | None => (None, c)
    end.

Definition handleOperator (nextOperator : operator_name) (c : Calculator) : Calculator :=
  let inputValue := parseFloat (VString (currentInput c)) in
  let finish (c : Calculator) :=
    updateDisplay
      (updateSecondaryDisplay false
         (set_justCalculated false
            (set_operator (Some nextOperator) (set_waitingForOperand true c)))) in
  if is_empty_string (previousInput c) then
    finish (set_previousInput (VNumber inputValue) c)
  else
    match operator c with
    | Some _ =>
        if negb (waitingForOperand c) then
          match performCalculation c with
          | (None, c') => c'
          | (Some result, c') =>
              finish (set_previousInput (VNumber result)
                        (set_currentInput (JS.toString result) c'))
          end
        else finish c
    | None => finish c
    end.

Definition calculate (c : Calculator) : Calculator :=
  if has_pending c && negb (waitingForOperand c) then
    match performCalculation c with
    | (None, c') => c'
    | (Some result, c') =>
        updateDisplay
          (set_justCalculated true
             (set_waitingForOperand false
                (set_operator None
                   (set_previousInput (VString "")
                      (set_currentInput (JS.toString result)
                         (updateSecondaryDisplay true c'))))))
    end
  else c.

(** ** Clearing *)

Definition clear (c : Calculator) : Calculator :=
  updateDisplay (set_currentInput "0" c).

Definition clearAll (c : Calculator) : Calculator :=
  updateDisplay
    (clearSecondaryDisplay
       (set_justCalculated false
          (set_waitingForOperand false
             (set_operator None
                (set_previousInput (VString "") (set_currentInput "0" c)))))).

(** [s.slice(0, -1)] *)
Definition slice_0_m1 (s : string) : string :=
  substring 0 (String.length s - 1) s.

Definition backspace (c : Calculator) : Calculator :=
  if justCalculated c then c
  else
    updateDisplay
      (if (1 <? String.length (currentInput c))%nat
       then set_currentInput (slice_0_m1 (currentInput c)) c
       else set_currentInput "0" c).

(** ** Dispatch *)

Definition handleAction (a : action) (c : Calculator) : Calculator :=
  match a with
  | Operator op => handleOperator op c
  | Equals => calculate c
  | Decimal => inputDecimal c
  | Clear => clear c
  | ClearAll => clearAll c
  | Backspace => backspace c
  end.

(** The constructor, on the two display elements of the page. *)
Definition constructor (primary secondary : element) : Calculator :=
  updateDisplay (mkCalculator primary secondary "0" (VString "") None false false 0).

(** The events the object reacts to: a digit, an action, or a timer of
    [showError] coming due (which calls [clearAll]). *)
Inductive event :=
  | Number (d : digit)
  | Action (a : action)
  | TimerFired.

Definition step (c : Calculator) (e : event) : Calculator :=
  match e with
  | Number d => inputNumber (digit_string d) c
  | Action a => handleAction a c
  | TimerFired =>
      match timeouts c with
      | O => c
      | S n => clearAll (set_timeouts n c)
      end
  end.

Definition run (c : Calculator) (events : list event) : Calculator :=
  fold_left step events c.

(** The calculator of a page whose displays start empty. *)
Definition blank : element := mkElement "" false.
Definition initial : Calculator := constructor blank blank.

(* ================================================================== *)
(** * Notions used by the properties *)
(* ================================================================== *)

(** The five fields of the calculator state (the displays and the
    pending timeouts left out). *)
Definition numeric_state (c : Calculator) :=
  (currentInput c, previousInput c, operator c, waitingForOperand c,
   justCalculated c).

(** [handleOperator] and [calculate] call [performCalculation] exactly
    when an operator and a previous operand are pending and an operand was
    entered since. *)
Definition evaluates (c : Calculator) : bool :=
  has_pending c && negb (waitingForOperand c).

(** Both operands parse and the evaluation is a division by zero. *)
Definition divides_by_zero (c : Calculator) : bool :=
  negb (JS.isNaN (parseFloat (previousInput c)))
  && negb (JS.isNaN (parseFloat (VString (currentInput c))))
  && match operator c with Some divide => true | _ => false end
  && JS.strict_eq (parseFloat (VString (currentInput c))) zero.

(** One of the operands parses to not-a-number. *)
Definition not_a_number (c : Calculator) : bool :=
  JS.isNaN (parseFloat (previousInput c))
  || JS.isNaN (parseFloat (VString (currentInput c))).

(** The result of the pending operation before it is rounded. *)
Definition raw_result (c : Calculator) : JS.number :=
  let prev := parseFloat (previousInput c) in
  let current := parseFloat (VString (currentInput c)) in
  match operator c with
  | Some add => JS.add prev current
  | Some subtract => JS.sub prev current
  | Some multiply => JS.mul prev current
  | Some divide => JS.div prev current
  | None => JS.NaN
  end.

(** [round((value + epsilon) * 1e8) / 1e8] *)
Definition round_1e8 (value : JS.number) : JS.number :=
  JS.div (JS.Math_round (JS.mul (JS.add value JS.EPSILON) lit_100000000))
    lit_100000000.

(** ** Numerals *)

Fixpoint all_digits (s : string) : bool :=
  match s with
  | EmptyString => true
  | String c r => JS.is_digit c && all_digits r
  end.

(** Digits, then possibly a point and digits. *)
Fixpoint digits_point_digits (s : string) : bool :=
  match s with
  | EmptyString => true
  | String c r =>
      if JS.is_digit c then digits_point_digits r
      else if (c =? ".")%char then all_digits r
      else false
  end.

(** An unsigned, possibly partial, decimal numeral: one or more digits,
    then possibly a point and further digits ("0", "12.5", "0."). *)
Definition unsigned_numeral (s : string) : bool :=
  match s with
  | EmptyString => false
  | String c r => JS.is_digit c && digits_point_digits r
  end.

(** A possibly partial decimal numeral, a minus sign allowed in front. *)
Definition decimal_numeral (s : string) : bool :=
  match s with
  | String "-"%char r => unsigned_numeral r
  | _ => unsigned_numeral s
  end.

(** [s] is a non-empty prefix of [t]. *)
Definition nonempty_prefix (s t : string) : bool :=
  negb (s =? "")%string && prefix s t.

(** What the input [cur] holds, by the operator [o] and the flags
    [waitingForOperand] [w] and [justCalculated] [j]: after [=] the string
    of a number; after an operator a numeral or the string of a number,
    possibly shortened by backspace; a numeral otherwise. *)
Definition shape_of (cur : string) (o : option operator_name) (w j : bool) : Prop :=
  if j then
    w = false /\ o = None /\ exists x, cur = JS.toString x
  else if w then
    unsigned_numeral cur = true
    \/ exists x, nonempty_prefix cur (JS.toString x) = true
  else unsigned_numeral cur = true.

Definition input_shape (c : Calculator) : Prop :=
  shape_of (currentInput c) (operator c) (waitingForOperand c) (justCalculated c).

(** No zero in front of another digit. *)
Definition no_redundant_leading_zero (s : string) : bool :=
  match s with
  | String a (String c _) => negb ((a =? "0")%char && JS.is_digit c)
  | _ => true
  end.

(** ** The concatenation rule for typed numerals *)

(** The keys that type a numeral. *)
Inductive key := KDigit (d : digit) | KPoint.

Definition key_event (k : key) : event :=
  match k with
  | KDigit d => Number d
  | KPoint => Action Decimal
  end.

Definition key_string (k : key) : string :=
  match k with
  | KDigit d => digit_string d
  | KPoint => "."
  end.

(** Every decimal point after the first is ignored. *)
Fixpoint drop_points (keys : list key) : list key :=
  match keys with
  | [] => []
  | KPoint :: r => drop_points r
  | k :: r => k :: drop_points r
  end.

Fixpoint first_point_only (keys : list key) : list key :=
  match keys with
  | [] => []
  | KPoint :: r => KPoint :: drop_points r
  | k :: r => k :: first_point_only r
  end.

(** A leading "0" is replaced by the digit that follows it. *)
Fixpoint replace_leading_zero (s : string) : string :=
  match s with
  | String a (String c _ as t) =>
      if (a =? "0")%char && JS.is_digit c then replace_leading_zero t else s
  | _ => s
  end.

(** The characters of the keys, left to right. *)
Fixpoint typed_text (keys : list key) : string :=
  match keys with
  | [] => ""
  | k :: r => key_string k ++ typed_text r
  end.

(** The rule of the specification: the keys are concatenated left to
    right onto the initial "0", every decimal point after the first being
    ignored, and the leading "0" is replaced by the digit after it. *)
Definition concatenation_rule (keys : list key) : string :=
  replace_leading_zero ("0" ++ typed_text (first_point_only keys)).

(** ** Further notions *)

(** A reachable state whose previous operand is not a number: 309 nines
    parse to [Infinity], [Infinity * 0] is [NaN], and the result "NaN" is
    taken as the operand of [+]. *)
Definition nan_operand_state : Calculator :=
  run initial
    (repeat (Number D9) 309
       ++ [Action (Operator multiply); Number D0; Action Equals;
           Action (Operator add); Number D1]).

(** The head of a string: its first character is not "0", or it is
    followed by a point or by nothing. *)
Definition plain_head (s : string) : Prop :=
  exists a r, s = String a r
    /\ ((a =? "0")%char = false \/ r = "" \/ exists r', r = String "." r').

(** A non-empty input with no zero in front of a digit. *)
Definition tidy (s : string) : Prop :=
  s <> "" /\ no_redundant_leading_zero s = true.

(** Is there a decimal point among the keys, in the string? *)
Definition has_point (keys : list key) : bool :=
  existsb (fun k => match k with KPoint => true | KDigit _ => false end) keys.

Fixpoint has_dot (s : string) : bool :=
  match s with
  | EmptyString => false
  | String a r => (a =? ".")%char || has_dot r
  end.

(** The state after typing the keys. *)
Definition type_keys (c : Calculator) (keys : list key) : Calculator :=
  run c (map key_event keys).

(* ================================================================== *)
(** * The input adapters: buttons and keys *)
(* ================================================================== *)

(** [handleAction] is written as a [switch] on the name of the action;
    a name it does not list falls through. *)
Definition action_of_string (name : string) : option action :=
  if (name =? "add")%string then Some (Operator add)
  else if (name =? "subtract")%string then Some (Operator subtract)
  else if (name =? "multiply")%string then Some (Operator multiply)
  else if (name =? "divide")%string then Some (Operator divide)
  else if (name =? "equals")%string then Some Equals
  else if (name =? "decimal")%string then Some Decimal
  else if (name =? "clear")%string then Some Clear
  else if (name =? "clear-all")%string then Some ClearAll
  else if (name =? "backspace")%string then Some Backspace
  else None.

Definition action_name (a : action) : string :=
  match a with
  | Operator add => "add"
  | Operator subtract => "subtract"
  | Operator multiply => "multiply"
  | Operator divide => "divide"
  | Equals => "equals"
  | Decimal => "decimal"
  | Clear => "clear"
  | ClearAll => "clear-all"
  | Backspace => "backspace"
  end.

(** [handleAction] on the name of an action. *)
Definition handleAction_string (name : string) (c : Calculator) : Calculator :=
  match action_of_string name with
  | Some a => handleAction a c
  | None => c
  end.

(** A button: its [data-number] and [data-action] attributes, [None]
    for [undefined]. *)
Record button := mkButton {
  dataset_number : option string;
  dataset_action : option string
}.

Definition handleButtonClick (b : button) (c : Calculator) : Calculator :=
  match dataset_number b with
  | Some number => inputNumber number c
  | None =>
      match dataset_action b with
      | Some name =>
          if (name =? "")%string then c else handleAction_string name c
      | None => c
      end
  end.

(** [/[0-9]/.test(key)]: some character of the key is a digit. *)
Fixpoint matches_digit (key : string) : bool :=
  match key with
  | EmptyString => false
  | String a r => JS.is_digit a || matches_digit r
  end.

Definition calculator_char (a : ascii) : bool :=
  (JS.is_digit a || (a =? "+") || (a =? "-") || (a =? "*") || (a =? "/")
   || (a =? ".") || (a =? "="))%char.

Fixpoint matches_calculator_char (key : string) : bool :=
  match key with
  | EmptyString => false
  | String a r => calculator_char a || matches_calculator_char r
  end.

(** [sub] occurs in [s]. *)
Definition contains (sub s : string) : bool :=
  match index 0 sub s with
  | Some _ => true
  | None => false
  end.

(** [/[0-9+\-*/.=]|Enter|Escape|Backspace/.test(key)] *)
Definition matches_calculator_key (key : string) : bool :=
  matches_calculator_char key || contains "Enter" key
  || contains "Escape" key || contains "Backspace" key.

(** The [switch] of [handleKeyPress]: the action of a key. *)
Definition key_action (key : string) : option string :=
  if (key =? "+")%string then Some "add"
  else if (key =? "-")%string then Some "subtract"
  else if (key =? "*")%string then Some "multiply"
  else if (key =? "/")%string then Some "divide"
  else if (key =? ".")%string then Some "decimal"
  else if ((key =? "=") || (key =? "Enter"))%string then Some "equals"
  else if (key =? "Escape")%string then Some "clear-all"
  else if (key =? "Backspace")%string then Some "backspace"
  else if ((key =? "c") || (key =? "C"))%string then Some "clear"
  else None.

(** The selectors given to [highlightButton]: the button of a number,
    the button of an action. *)
Inductive selector :=
  | by_number (number : string)
  | by_action (name : string).

(** What a key press does: the calculator after it, whether
    [preventDefault] was called, and the buttons asked to be
    highlighted. *)
Record key_outcome := mkOutcome {
  after_key : Calculator;
  default_prevented : bool;
  highlighted : list selector
}.

Definition handleKeyPress (key : string) (c : Calculator) : key_outcome :=
  let prevented := matches_calculator_key key in
  let '(c1, h1) :=
    if matches_digit key then (inputNumber key c, [by_number key])
    else (c, []) in
  match key_action key with
  | Some name => mkOutcome (handleAction_string name c1) prevented (h1 ++ [by_action name])%list
  | None => mkOutcome c1 prevented h1
  end.

(** The key and the button of an event of the calculator. *)
Definition key_of_action (a : action) : string :=
  match a with
  | Operator add => "+"
  | Operator subtract => "-"
  | Operator multiply => "*"
  | Operator divide => "/"
  | Equals => "="
  | Decimal => "."
  | Clear => "c"
  | ClearAll => "Escape"
  | Backspace => "Backspace"
  end.

Definition number_button (d : digit) : button :=
  mkButton (Some (digit_string d)) None.

Definition action_button (a : action) : button :=
  mkButton None (Some (action_name a)).

(** ** Notions for the properties of the whole class *)

(** How the previous operand, the operator and the flags go together. *)
Definition pending_consistent (c : Calculator) : Prop :=
  (previousInput c = VString "" \/ exists x, previousInput c = VNumber x)
  /\ (operator c = None <-> previousInput c = VString "")
  /\ (waitingForOperand c = true -> operator c <> None)
  /\ (justCalculated c = true -> waitingForOperand c = false).

(** The primary display shows the current input. *)
Definition display_synced (c : Calculator) : Prop :=
  displayPrimary c = mkElement (formatNumber (VString (currentInput c))) false.

(** The primary display shows the current input, or the error while a
    timer of [showError] is pending. *)
Definition display_consistent (c : Calculator) : Prop :=
  display_synced c
  \/ (displayPrimary c = mkElement "Error" true /\ (0 < timeouts c)%nat).

(** The text of the secondary display while an operator is pending, and
    after [=]. *)
Definition pending_text (prev : value) (o : option operator_name) : string :=
  formatNumber prev ++ " " ++ getOperatorSymbol o.

Definition expression_text (prev : value) (o : option operator_name) (cur : string) : string :=
  formatNumber prev ++ " " ++ getOperatorSymbol o ++ " "
    ++ formatNumber (VString cur) ++ " =".

(** What the secondary display shows, [initial_text] being its text in
    the page: after [=] an expression; with an operator pending the
    previous operand and the operator, or the message of an error;
    otherwise nothing, or the text of the page. *)
Definition secondary_consistent (initial_text : string) (c : Calculator) : Prop :=
  let text := textContent (displaySecondary c) in
  if justCalculated c then
    operator c = None
    /\ exists prev op cur, text = expression_text prev (Some op) cur
  else
    match operator c with
    | Some _ =>
        previousInput c <> VString ""
        /\ (text = pending_text (previousInput c) (operator c)
            \/ text = "Cannot divide by zero")
    | None => text = "" \/ text = initial_text
    end.

(** An event of the user: anything but a timer coming due. *)
Definition user_event (e : event) : Prop := e <> TimerFired.

(** "0", "00", "0.", "0.000": zeros with at most one point after the
    first. *)
Definition zero_numeral (whole fraction : nat) (point : bool) : string :=
  JS.zeros (S whole) ++ (if point then "." ++ JS.zeros fraction else "").

(** A finite number or a zero. *)
Definition is_finite (x : JS.number) : bool :=
  match x with
  | S754_zero _ | S754_finite _ _ _ => true
  | _ => false
  end.

(* ================================================================== *)
(** * Properties *)
(* ================================================================== *)

Arguments formatNumber : simpl never.
Arguments JS.toString : simpl never.
Arguments JS.parseFloat : simpl never.

(** ** The frame of the display functions *)

Lemma numeric_state_updateDisplay (c : Calculator) :
  numeric_state (updateDisplay c) = numeric_state c.
Proof. reflexivity. Qed.

Lemma numeric_state_showError (message : string) (c : Calculator) :
  numeric_state (showError message c) = numeric_state c.
Proof. reflexivity. Qed.

Lemma formatNumber_zero : formatNumber (VString "0") = "0".
Proof. vm_compute. reflexivity. Qed.

(** ** Evaluation *)

(** [performCalculation] changes the state only through [showError], and
    only for a division by zero. *)
Lemma performCalculation_state (c : Calculator) :
  snd (performCalculation c) =
    if divides_by_zero c then showError "Cannot divide by zero" c else c.
Proof.
  unfold performCalculation, divides_by_zero.
  destruct (JS.isNaN (parseFloat (previousInput c))),
    (JS.isNaN (parseFloat (VString (currentInput c)))),
    (operator c) as [[ | | | ]|],
    (JS.strict_eq (parseFloat (VString (currentInput c))) zero); reflexivity.
Qed.

(** When [performCalculation] returns [null], and what it returns
    otherwise. *)
Lemma performCalculation_result (c : Calculator) :
  fst (performCalculation c) =
    if not_a_number c then None
    else match operator c with
         | None => None
         | Some _ =>
             if divides_by_zero c then None else Some (round_1e8 (raw_result c))
         end.
Proof.
  unfold performCalculation, divides_by_zero, not_a_number, raw_result, round_1e8.
  destruct (JS.isNaN (parseFloat (previousInput c))),
    (JS.isNaN (parseFloat (VString (currentInput c)))),
    (operator c) as [[ | | | ]|],
    (JS.strict_eq (parseFloat (VString (currentInput c))) zero); reflexivity.
Qed.

Lemma evaluates_inv (c : Calculator) :
  evaluates c = true ->
  is_empty_string (previousInput c) = false
  /\ (exists op, operator c = Some op)
  /\ waitingForOperand c = false.
Proof.
  unfold evaluates, has_pending.
  destruct (operator c) as [op|]; simpl; [|discriminate].
  destruct (is_empty_string (previousInput c)); simpl; [discriminate|].
  destruct (waitingForOperand c); simpl; [discriminate|].
  intros _. repeat split. exists op. reflexivity.
Qed.

(** A failed evaluation ends [handleOperator] and [calculate] in the
    state [performCalculation] left. *)
Lemma handleOperator_failed (op : operator_name) (c : Calculator) :
  evaluates c = true ->
  fst (performCalculation c) = None ->
  handleOperator op c = snd (performCalculation c).
Proof.
  intros He Hf. destruct (evaluates_inv c He) as (Hp & (o & Ho) & Hw).
  unfold handleOperator. rewrite Hp, Ho, Hw. simpl.
  destruct (performCalculation c) as [[r|] c']; simpl in *; [discriminate|reflexivity].
Qed.

Lemma calculate_failed (c : Calculator) :
  evaluates c = true ->
  fst (performCalculation c) = None ->
  calculate c = snd (performCalculation c).
Proof.
  intros He Hf. unfold calculate. unfold evaluates in He. rewrite He.
  destruct (performCalculation c) as [[r|] c']; simpl in *; [discriminate|reflexivity].
Qed.

Lemma divides_by_zero_not_nan (c : Calculator) :
  divides_by_zero c = true -> not_a_number c = false.
Proof.
  unfold divides_by_zero, not_a_number.
  destruct (JS.isNaN (parseFloat (previousInput c))),
    (JS.isNaN (parseFloat (VString (currentInput c))));
    simpl; (discriminate || reflexivity).
Qed.

Lemma divides_by_zero_fails (c : Calculator) :
  divides_by_zero c = true -> fst (performCalculation c) = None.
Proof.
  intros H. rewrite performCalculation_result, (divides_by_zero_not_nan c H), H.
  destruct (operator c); reflexivity.
Qed.

Lemma not_a_number_not_zero_division (c : Calculator) :
  not_a_number c = true -> divides_by_zero c = false.
Proof.
  intros H. destruct (divides_by_zero c) eqn:E; [|reflexivity].
  rewrite (divides_by_zero_not_nan c E) in H. discriminate.
Qed.

(** C1: when the evaluation triggered by [handleOperator] or [calculate]
    is a division by zero, the primary display shows "Error" (with the
    error class), the secondary display the non-empty message "Cannot
    divide by zero", and the five state fields, [justCalculated] among
    them, are those of before. *)
Theorem division_by_zero_shows_error (c c' : Calculator) :
  evaluates c = true ->
  divides_by_zero c = true ->
  c' = calculate c \/ (exists op, c' = handleOperator op c) ->
  textContent (displayPrimary c') = "Error"
  /\ display_error (displayPrimary c') = true
  /\ textContent (displaySecondary c') = "Cannot divide by zero"
  /\ textContent (displaySecondary c') <> ""
  /\ numeric_state c' = numeric_state c
  /\ justCalculated c' = justCalculated c.
Proof.
  intros He Hz Hc'.
  assert (E : c' = showError "Cannot divide by zero" c).
  { pose proof (divides_by_zero_fails c Hz) as Hf.
    pose proof (performCalculation_state c) as Hs. rewrite Hz in Hs.
    destruct Hc' as [-> | [op ->]].
    - rewrite (calculate_failed c He Hf). exact Hs.
    - rewrite (handleOperator_failed op c He Hf). exact Hs. }
  subst c'. repeat split. simpl. discriminate.
Qed.

Lemma division_by_zero_shows_error_witness :
  let c := run initial [Number D5; Action (Operator divide); Number D0] in
  textContent (displayPrimary (calculate c)) = "Error"
  /\ display_error (displayPrimary (calculate c)) = true
  /\ textContent (displaySecondary (calculate c)) = "Cannot divide by zero"
  /\ textContent (displaySecondary (calculate c)) <> ""
  /\ numeric_state (calculate c) = numeric_state c
  /\ justCalculated (calculate c) = justCalculated c.
Proof.
  intro c.
  apply (division_by_zero_shows_error c (calculate c)).
  - vm_compute. reflexivity.
  - vm_compute. reflexivity.
  - left. reflexivity.
Defined.

(** ** Operands that do not parse *)

(** C2, as stated, fails: in [nan_operand_state] the previous operand
    parses to not-a-number and [=] triggers an evaluation, yet the primary
    display keeps "1" and the secondary "0 +": no "Error", no message. *)
Lemma not_a_number_no_error_display :
  evaluates nan_operand_state = true
  /\ not_a_number nan_operand_state = true
  /\ textContent (displayPrimary (calculate nan_operand_state)) = "1"
  /\ textContent (displayPrimary (calculate nan_operand_state)) <> "Error"
  /\ display_error (displayPrimary (calculate nan_operand_state)) = false
  /\ textContent (displaySecondary (calculate nan_operand_state)) = "0 +".
Proof.
  assert (E : calculate nan_operand_state = nan_operand_state)
    by (vm_compute; reflexivity).
  rewrite E.
  repeat split; try (vm_compute; reflexivity).
  vm_compute. discriminate.
Qed.

(** C2, amended: when an operand parses to not-a-number, the evaluation
    triggered by [handleOperator] or [calculate] is abandoned silently:
    the whole state, both displays included, is left as it was and no
    error is shown. *)
Theorem not_a_number_is_silent (c : Calculator) (op : operator_name) :
  evaluates c = true ->
  not_a_number c = true ->
  calculate c = c /\ handleOperator op c = c.
Proof.
  intros He Hn.
  assert (Hf : fst (performCalculation c) = None)
    by (rewrite performCalculation_result, Hn; reflexivity).
  assert (Hs : snd (performCalculation c) = c)
    by (rewrite performCalculation_state,
          (not_a_number_not_zero_division c Hn); reflexivity).
  split.
  - rewrite (calculate_failed c He Hf). exact Hs.
  - rewrite (handleOperator_failed op c He Hf). exact Hs.
Qed.

Lemma not_a_number_is_silent_witness :
  calculate nan_operand_state = nan_operand_state
  /\ handleOperator subtract nan_operand_state = nan_operand_state.
Proof.
  apply (not_a_number_is_silent nan_operand_state subtract).
  - vm_compute. reflexivity.
  - vm_compute. reflexivity.
Defined.

(** ** Chained operators *)

(** C4: from the initial state, 5 + 3 + evaluates 5 + 3 at the second
    [+]: 8 becomes the previous operand and "8" the current input; then
    2 = gives 10, shown on the primary display. *)
Theorem chained_operators_evaluate_eagerly :
  let at_second_add :=
    run initial [Number D5; Action (Operator add); Number D3;
                 Action (Operator add)] in
  let at_end := run at_second_add [Number D2; Action Equals] in
  previousInput at_second_add = VNumber (JS.of_Z 8)
  /\ currentInput at_second_add = "8"
  /\ textContent (displayPrimary at_second_add) = "8"
  /\ currentInput at_end = "10"
  /\ textContent (displayPrimary at_end) = "10"
  /\ parseFloat (VString (currentInput at_end)) = JS.of_Z 10.
Proof.
  vm_compute. repeat split.
Qed.

(** ** Rounding of results *)

(** C6: a successful evaluation returns
    [round((value + EPSILON) * 1e8) / 1e8] of the unrounded result, the
    evaluation failing exactly when an operand is not a number, no
    operator is pending, or the division is by zero; [EPSILON] is the
    offset from 1 to the next number; and 0.1 + 0.2 = shows "0.3". *)
Theorem results_are_rounded :
  (forall c,
      fst (performCalculation c) =
        if not_a_number c || divides_by_zero c
           || match operator c with None => true | Some _ => false end
        then None
        else Some (round_1e8 (raw_result c)))
  /\ SFsucc JS.prec JS.emax (JS.of_Z 1) = JS.add (JS.of_Z 1) JS.EPSILON
  /\ JS.sub (SFsucc JS.prec JS.emax (JS.of_Z 1)) (JS.of_Z 1) = JS.EPSILON
  /\ let c :=
       run initial
         [Number D0; Action Decimal; Number D1; Action (Operator add);
          Number D0; Action Decimal; Number D2; Action Equals] in
     textContent (displayPrimary c) = "0.3"
     /\ currentInput c = "0.3"
     /\ JS.toString (JS.add (JS.parseFloat "0.1") (JS.parseFloat "0.2"))
        = "0.30000000000000004".
Proof.
  split; [|vm_compute; repeat split].
  intros c. rewrite performCalculation_result.
  destruct (not_a_number c), (divides_by_zero c), (operator c); reflexivity.
Qed.

(** ** Clearing *)

Lemma clearAll_resets (c : Calculator) :
  numeric_state (clearAll c) = ("0", VString "", None, false, false)
  /\ displayPrimary (clearAll c) = mkElement "0" false
  /\ textContent (displaySecondary (clearAll c)) = "".
Proof.
  split; [reflexivity|]. split; [|reflexivity].
  unfold clearAll, updateDisplay. simpl.
  rewrite formatNumber_zero. reflexivity.
Qed.

(** C7: whatever the events so far, [clearAll] gives the five state
    fields their values at construction ("0", no previous operand, no
    operator, both flags false), the primary display its text at
    construction, "0" without the error class, and empties the secondary
    display. *)
Theorem clearAll_restores_creation_state
    (primary secondary : element) (events : list event) :
  let created := constructor primary secondary in
  let c := clearAll (run created events) in
  numeric_state c = numeric_state created
  /\ currentInput c = "0"
  /\ previousInput c = VString ""
  /\ operator c = None
  /\ waitingForOperand c = false
  /\ justCalculated c = false
  /\ displayPrimary c = displayPrimary created
  /\ textContent (displayPrimary c) = "0"
  /\ textContent (displaySecondary c) = "".
Proof.
  intros created c.
  destruct (clearAll_resets (run created events)) as (Hn & Hp & Hs).
  fold c in Hn, Hp, Hs.
  assert (Hc : displayPrimary created = mkElement "0" false).
  { unfold created, constructor, updateDisplay. simpl.
    rewrite formatNumber_zero. reflexivity. }
  rewrite Hc, Hp. unfold numeric_state in *.
  inversion Hn as [[H1 H2 H3 H4 H5]].
  repeat split.
Qed.

(** C8: [clear] sets [currentInput] to "0" and keeps the previous
    operand, the operator and the two flags; when [currentInput] is "0"
    already, the five state fields are unchanged. *)
Theorem clear_resets_entry_only (c : Calculator) :
  currentInput (clear c) = "0"
  /\ previousInput (clear c) = previousInput c
  /\ operator (clear c) = operator c
  /\ waitingForOperand (clear c) = waitingForOperand c
  /\ justCalculated (clear c) = justCalculated c
  /\ (currentInput c = "0" -> numeric_state (clear c) = numeric_state c).
Proof.
  repeat split. intros H. unfold numeric_state. simpl. rewrite H. reflexivity.
Qed.

Lemma clear_resets_entry_only_witness :
  let c := run initial [Number D7; Action (Operator add); Action Clear] in
  currentInput c = "0" /\ numeric_state (clear c) = numeric_state c.
Proof.
  intro c. split.
  - vm_compute. reflexivity.
  - apply (clear_resets_entry_only c). vm_compute. reflexivity.
Defined.

(** ** Strings *)

Lemma append_nil_r (s : string) : s ++ "" = s.
Proof. induction s as [|a s IH]; simpl; [reflexivity | rewrite IH; reflexivity]. Qed.

Lemma append_assoc (s t u : string) : (s ++ t) ++ u = s ++ (t ++ u).
Proof. induction s as [|a s IH]; simpl; [reflexivity | rewrite IH; reflexivity]. Qed.

Lemma slice_0_m1_single (a : ascii) : slice_0_m1 (String a "") = "".
Proof. reflexivity. Qed.

Lemma slice_0_m1_cons (a b : ascii) (r : string) :
  slice_0_m1 (String a (String b r)) = String a (slice_0_m1 (String b r)).
Proof. unfold slice_0_m1. simpl. rewrite Nat.sub_0_r. reflexivity. Qed.

(** A string of more than one character, seen as its first two. *)
Lemma long_string (s : string) :
  (1 <? String.length s)%nat = true -> exists a b r, s = String a (String b r).
Proof.
  destruct s as [|a [|b r]]; simpl; try discriminate.
  intros _. exists a, b, r. reflexivity.
Qed.

Lemma short_string (s : string) :
  (String.length s <= 1)%nat -> (1 <? String.length s)%nat = false.
Proof. intros H. apply Nat.ltb_ge. exact H. Qed.

Lemma slice_0_m1_nonempty (s : string) :
  (1 <? String.length s)%nat = true -> slice_0_m1 s <> "".
Proof.
  intros H. destruct (long_string s H) as (a & b & r & ->).
  rewrite slice_0_m1_cons. discriminate.
Qed.

(** ** Backspace *)

Lemma justCalculated_backspace (c : Calculator) :
  justCalculated (backspace c) = justCalculated c.
Proof.
  unfold backspace. destruct (justCalculated c) eqn:J; [exact J|].
  destruct (1 <? String.length (currentInput c))%nat; exact J.
Qed.

Lemma currentInput_backspace (c : Calculator) :
  justCalculated c = false ->
  currentInput (backspace c) =
    if (1 <? String.length (currentInput c))%nat
    then slice_0_m1 (currentInput c) else "0".
Proof.
  intros J. unfold backspace. rewrite J.
  destruct (1 <? String.length (currentInput c))%nat; reflexivity.
Qed.

Lemma backspace_on_zero (n : nat) (c : Calculator) :
  justCalculated c = false -> currentInput c = "0" ->
  justCalculated (Nat.iter n backspace c) = false
  /\ currentInput (Nat.iter n backspace c) = "0".
Proof.
  intros J H. induction n as [|n [IHj IHc]]; simpl; [split; assumption|].
  split.
  - rewrite justCalculated_backspace. exact IHj.
  - rewrite (currentInput_backspace _ IHj), IHc. reflexivity.
Qed.

(** C9: with [justCalculated] false, backspace on "0" leaves "0",
    however many times it is repeated; when removing the last character
    would leave nothing, [currentInput] becomes "0"; and it is never left
    empty. *)
Theorem backspace_floor (c : Calculator) (n : nat) :
  justCalculated c = false ->
  (currentInput c = "0" -> currentInput (Nat.iter n backspace c) = "0")
  /\ ((String.length (currentInput c) <= 1)%nat -> currentInput (backspace c) = "0")
  /\ currentInput (backspace c) <> "".
Proof.
  intros J. rewrite (currentInput_backspace c J). repeat split.
  - intros H. apply (backspace_on_zero n c J H).
  - intros H. rewrite (short_string _ H). reflexivity.
  - destruct (1 <? String.length (currentInput c))%nat eqn:L.
    + apply slice_0_m1_nonempty. exact L.
    + discriminate.
Qed.

Lemma backspace_floor_witness :
  currentInput (Nat.iter 3 backspace initial) = "0"
  /\ currentInput (backspace (run initial [Number D7])) = "0"
  /\ currentInput (backspace (run initial [Number D7; Number D2])) <> "".
Proof.
  split; [|split].
  - apply (backspace_floor initial 3); reflexivity.
  - apply (backspace_floor (run initial [Number D7]) 0); [reflexivity|].
    vm_compute. lia.
  - apply (backspace_floor (run initial [Number D7; Number D2]) 0). reflexivity.
Defined.

(** ** The first characters of [String(x)] *)

Lemma pow10_step (k : Z) : 1 <= k -> 10 ^ k = 10 * 10 ^ (k - 1) /\ 0 < 10 ^ (k - 1).
Proof.
  intros H. split.
  - replace k with (Z.succ (k - 1)) at 1 by lia. apply Z.pow_succ_r. lia.
  - apply Z.pow_pos_nonneg; lia.
Qed.

Lemma in_range_bounds (k s : Z) :
  JS.in_range k s = true -> 10 ^ (k - 1) <= s < 10 ^ k.
Proof.
  unfold JS.in_range. intros H. apply andb_prop in H. destruct H as [H1 H2].
  apply Z.leb_le in H1. apply Z.ltb_lt in H2. lia.
Qed.

Lemma in_range_first_digit (k s : Z) :
  1 <= k -> JS.in_range k s = true -> 1 <= (s / 10 ^ (k - 1)) mod 10 < 10.
Proof.
  intros Hk H. apply in_range_bounds in H.
  destruct (pow10_step k Hk) as [E Hpos].
  assert (1 <= s / 10 ^ (k - 1) < 10).
  { split.
    - apply Z.div_le_lower_bound; lia.
    - apply Z.div_lt_upper_bound; lia. }
  rewrite Z.mod_small; lia.
Qed.

Lemma digit_char_nonzero (d : Z) :
  1 <= d < 10 -> (JS.digit_char d =? "0")%char = false.
Proof.
  intros H.
  assert (C : d = 1 \/ d = 2 \/ d = 3 \/ d = 4 \/ d = 5 \/ d = 6 \/ d = 7
              \/ d = 8 \/ d = 9) by lia.
  repeat (destruct C as [-> | C]; [reflexivity|]). subst d. reflexivity.
Qed.

(** The digits of a number in range start with a digit other than 0. *)
Lemma digits_fixed_head (k s : Z) :
  1 <= k -> JS.in_range k s = true ->
  exists a r, JS.digits_fixed (Z.to_nat k) s = String a r
              /\ (a =? "0")%char = false.
Proof.
  intros Hk H.
  destruct (Z.to_nat k) as [|k'] eqn:E; [lia|].
  simpl. eexists. eexists. split; [reflexivity|].
  apply digit_char_nonzero.
  replace (Z.of_nat k') with (k - 1) by lia.
  apply in_range_first_digit; assumption.
Qed.

Lemma round_trips_in_range (v : JS.number) (s k n : Z) :
  JS.round_trips v s k n = true -> JS.in_range k s = true.
Proof. unfold JS.round_trips. intros H. apply andb_prop in H. apply H. Qed.

Lemma shortest_at_in_range (v : JS.number) (p q n k s n' : Z) :
  JS.shortest_at v p q n k = Some (s, n') -> JS.in_range k s = true.
Proof.
  unfold JS.shortest_at.
  destruct (JS.scaled p q (k - n)) as [P Q].
  destruct (P / Q + 1 =? 10 ^ k).
  - destruct (JS.round_trips v (P / Q) k n) eqn:Lo,
      (JS.round_trips v (10 ^ (k - 1)) k (n + 1)) eqn:Hi;
      try discriminate;
      repeat match goal with
        | |- context [match ?x with _ => _ end] => destruct x
        end;
      intros E; inversion E; subst;
      eauto using round_trips_in_range.
  - destruct (JS.round_trips v (P / Q) k n) eqn:Lo,
      (JS.round_trips v (P / Q + 1) k n) eqn:Hi;
      try discriminate;
      repeat match goal with
        | |- context [match ?x with _ => _ end] => destruct x
        end;
      intros E; inversion E; subst;
      eauto using round_trips_in_range.
Qed.

Lemma shortest_from_in_range (fuel : nat) (v : JS.number) (p q n : Z) :
  forall k s k' n',
    1 <= k ->
    JS.shortest_from fuel v p q n k = (s, k', n') ->
    1 <= k' /\ JS.in_range k' s = true.
Proof.
  induction fuel as [|fuel IH]; intros k s k' n' Hk; simpl.
  - destruct (JS.scaled p q (k - n)) as [P Q]. intros E. inversion E; subst.
    split; [exact Hk|].
    destruct (pow10_step k' Hk) as [E10 Hpos].
    unfold JS.in_range. apply andb_true_intro. split.
    + apply Z.leb_le. lia.
    + apply Z.ltb_lt. lia.
  - destruct (JS.shortest_at v p q n k) as [[s0 n0]|] eqn:A.
    + intros E. inversion E; subst. split; [exact Hk|].
      eapply shortest_at_in_range. exact A.
    + intros E. apply (IH (k + 1) s k' n'); [lia | exact E].
Qed.

Lemma plain_head_nonzero (a : ascii) (r : string) :
  (a =? "0")%char = false -> plain_head (String a r).
Proof. intros H. exists a, r. split; [reflexivity | left; exact H]. Qed.

Lemma plain_head_no_redundant_zero (s : string) :
  plain_head s -> s <> "" /\ no_redundant_leading_zero s = true.
Proof.
  intros (a & r & -> & H). split; [discriminate|].
  destruct r as [|c r]; [reflexivity|]. simpl.
  destruct H as [H | [H | [r' H]]].
  - rewrite H. reflexivity.
  - discriminate.
  - inversion H; subst. rewrite andb_false_r. reflexivity.
Qed.

Lemma format_shortest_head (s k n : Z) :
  1 <= k -> JS.in_range k s = true -> plain_head (JS.format_shortest s k n).
Proof.
  intros Hk H. unfold JS.format_shortest.
  destruct (digits_fixed_head k s Hk H) as (a & r & -> & Ha).
  destruct ((k <=? n) && (n <=? 21)).
  { simpl. apply plain_head_nonzero. exact Ha. }
  destruct ((0 <? n) && (n <=? 21)) eqn:B.
  { apply andb_prop in B. destruct B as [B _]. apply Z.ltb_lt in B.
    destruct (Z.to_nat n) as [|n1] eqn:E; [lia|].
    simpl. apply plain_head_nonzero. exact Ha. }
  destruct ((-6 <? n) && (n <=? 0)).
  { simpl. eexists. eexists. split; [reflexivity|].
    right. right. eexists. reflexivity. }
  destruct (k =? 1); simpl; apply plain_head_nonzero; exact Ha.
Qed.

Lemma toString_head (x : JS.number) : plain_head (JS.toString x).
Proof.
  destruct x as [s|s| |s m e]; unfold JS.toString.
  - eexists. eexists. split; [reflexivity|]. right. left. reflexivity.
  - destruct s; apply plain_head_nonzero; reflexivity.
  - apply plain_head_nonzero. reflexivity.
  - destruct (JS.shortest m e) as [[d k] n] eqn:E.
    destruct s; [apply plain_head_nonzero; reflexivity|].
    simpl. unfold JS.shortest in E.
    destruct (JS.ratio_of m e) as [p q].
    apply shortest_from_in_range in E; [|lia].
    apply format_shortest_head; apply E.
Qed.

Lemma toString_nonempty (x : JS.number) : JS.toString x <> "".
Proof. apply (plain_head_no_redundant_zero _ (toString_head x)). Qed.

(** ** Reachable states *)

Lemma run_snoc (c : Calculator) (events : list event) (e : event) :
  run c (events ++ [e]) = step (run c events) e.
Proof. unfold run. rewrite fold_left_app. reflexivity. Qed.

(** A property of the constructed calculator that every event preserves
    holds after every sequence of events. *)
Lemma run_invariant (P : Calculator -> Prop) :
  (forall primary secondary, P (constructor primary secondary)) ->
  (forall c e, P c -> P (step c e)) ->
  forall primary secondary events, P (run (constructor primary secondary) events).
Proof.
  intros Hinit Hstep primary secondary events.
  induction events as [|e events IH] using rev_ind.
  - apply Hinit.
  - rewrite run_snoc. apply Hstep. exact IH.
Qed.

(** ** The state after an operator and after [=] *)

Lemma numeric_state_updateSecondaryDisplay (b : bool) (c : Calculator) :
  numeric_state (updateSecondaryDisplay b c) = numeric_state c.
Proof.
  unfold updateSecondaryDisplay.
  destruct (b && has_pending c), (has_pending c); reflexivity.
Qed.

Lemma numeric_state_performCalculation (c : Calculator) :
  numeric_state (snd (performCalculation c)) = numeric_state c.
Proof.
  rewrite performCalculation_state. destruct (divides_by_zero c); reflexivity.
Qed.

Lemma numeric_state_fields (c : Calculator) cur prev o w j :
  numeric_state c = (cur, prev, o, w, j) ->
  currentInput c = cur /\ previousInput c = prev /\ operator c = o
  /\ waitingForOperand c = w /\ justCalculated c = j.
Proof. unfold numeric_state. intros H. inversion H. repeat split. Qed.

Lemma numeric_state_handleOperator (op : operator_name) (c : Calculator) :
  numeric_state (handleOperator op c) =
    if is_empty_string (previousInput c) then
      (currentInput c, VNumber (parseFloat (VString (currentInput c))),
       Some op, true, false)
    else if evaluates c then
      match fst (performCalculation c) with
      | Some r => (JS.toString r, VNumber r, Some op, true, false)
      | None => numeric_state c
      end
    else (currentInput c, previousInput c, Some op, true, false).
Proof.
  unfold handleOperator, evaluates, has_pending.
  destruct (is_empty_string (previousInput c)).
  { rewrite numeric_state_updateDisplay, numeric_state_updateSecondaryDisplay.
    reflexivity. }
  destruct (operator c) as [o|], (waitingForOperand c); simpl;
    try (rewrite numeric_state_updateDisplay, numeric_state_updateSecondaryDisplay;
         reflexivity).
  pose proof (numeric_state_performCalculation c) as E.
  destruct (performCalculation c) as [[r|] c']; simpl in *.
  - rewrite numeric_state_updateDisplay, numeric_state_updateSecondaryDisplay.
    reflexivity.
  - exact E.
Qed.

Lemma numeric_state_calculate (c : Calculator) :
  numeric_state (calculate c) =
    if evaluates c then
      match fst (performCalculation c) with
      | Some r => (JS.toString r, VString "", None, false, true)
      | None => numeric_state c
      end
    else numeric_state c.
Proof.
  unfold calculate, evaluates.
  destruct (has_pending c && negb (waitingForOperand c)); [|reflexivity].
  pose proof (numeric_state_performCalculation c) as E.
  destruct (performCalculation c) as [[r|] c']; simpl in *.
  - reflexivity.
  - exact E.
Qed.

(** After an operator: the state fields are unchanged (a failed
    evaluation), or the calculator waits for an operand with the same
    input or the string of a result. *)
Lemma handleOperator_cases (op : operator_name) (c : Calculator) :
  numeric_state (handleOperator op c) = numeric_state c
  \/ (waitingForOperand (handleOperator op c) = true
      /\ justCalculated (handleOperator op c) = false
      /\ (currentInput (handleOperator op c) = currentInput c
          \/ exists r, currentInput (handleOperator op c) = JS.toString r)).
Proof.
  pose proof (numeric_state_handleOperator op c) as E.
  destruct (is_empty_string (previousInput c)).
  { apply numeric_state_fields in E. right. intuition. }
  destruct (evaluates c).
  - destruct (fst (performCalculation c)) as [r|].
    + apply numeric_state_fields in E. right. intuition eauto.
    + left. exact E.
  - apply numeric_state_fields in E. right. intuition.
Qed.

(** After [=]: the state fields are unchanged, or the string of a result
    is shown as just calculated, with no operator pending. *)
Lemma calculate_cases (c : Calculator) :
  numeric_state (calculate c) = numeric_state c
  \/ (waitingForOperand (calculate c) = false
      /\ justCalculated (calculate c) = true
      /\ operator (calculate c) = None
      /\ exists r, currentInput (calculate c) = JS.toString r).
Proof.
  pose proof (numeric_state_calculate c) as E.
  destruct (evaluates c); [|left; exact E].
  destruct (fst (performCalculation c)) as [r|]; [|left; exact E].
  apply numeric_state_fields in E. right. intuition eauto.
Qed.

(** ** No zero in front of a digit *)

Lemma tidy_digit (d : digit) : tidy (digit_string d).
Proof. split; destruct d; (discriminate || reflexivity). Qed.

Lemma tidy_zero : tidy "0".
Proof. split; [discriminate | reflexivity]. Qed.

Lemma tidy_zero_point : tidy "0.".
Proof. split; [discriminate | reflexivity]. Qed.

Lemma tidy_toString (x : JS.number) : tidy (JS.toString x).
Proof. apply plain_head_no_redundant_zero, toString_head. Qed.

Lemma tidy_append_digit (s : string) (d : digit) :
  tidy s -> (s =? "0")%string = false -> tidy (s ++ digit_string d).
Proof.
  intros [Hne H] Hz. destruct s as [|a [|b r]].
  - contradiction.
  - split; [discriminate|].
    assert (Ha : (a =? "0")%char = false).
    { apply Ascii.eqb_neq. intros ->. discriminate. }
    destruct d; simpl; rewrite Ha; reflexivity.
  - split; [discriminate | exact H].
Qed.

Lemma tidy_append_point (s : string) : tidy s -> tidy (s ++ ".").
Proof.
  intros [Hne H]. destruct s as [|a [|b r]].
  - contradiction.
  - split; [discriminate|]. simpl. rewrite andb_false_r. reflexivity.
  - split; [discriminate | exact H].
Qed.

Lemma tidy_slice (s : string) :
  (1 <? String.length s)%nat = true -> tidy s -> tidy (slice_0_m1 s).
Proof.
  intros L [_ H]. destruct (long_string s L) as (a & b & r & ->).
  rewrite slice_0_m1_cons. split; [discriminate|].
  destruct r as [|b' r]; [reflexivity|].
  rewrite slice_0_m1_cons. exact H.
Qed.

Lemma tidy_inputNumber (d : digit) (c : Calculator) :
  tidy (currentInput c) -> tidy (currentInput (inputNumber (digit_string d) c)).
Proof.
  intros H. unfold inputNumber.
  destruct (waitingForOperand c); [apply tidy_digit|].
  destruct (justCalculated c); [apply tidy_digit|].
  simpl. destruct (currentInput c =? "0")%string eqn:Z.
  - apply tidy_digit.
  - apply tidy_append_digit; assumption.
Qed.

Lemma tidy_inputDecimal (c : Calculator) :
  tidy (currentInput c) -> tidy (currentInput (inputDecimal c)).
Proof.
  intros H. unfold inputDecimal.
  destruct (waitingForOperand c); [apply tidy_zero_point|].
  destruct (justCalculated c); [apply tidy_zero_point|].
  destruct (index 0 "." (currentInput c)); simpl.
  - exact H.
  - apply tidy_append_point. exact H.
Qed.

Lemma tidy_handleOperator (op : operator_name) (c : Calculator) :
  tidy (currentInput c) -> tidy (currentInput (handleOperator op c)).
Proof.
  intros H. destruct (handleOperator_cases op c) as [E | (_ & _ & [E | [r E]])].
  - apply numeric_state_fields in E. destruct E as [E _]. rewrite E. exact H.
  - rewrite E. exact H.
  - rewrite E. apply tidy_toString.
Qed.

Lemma tidy_calculate (c : Calculator) :
  tidy (currentInput c) -> tidy (currentInput (calculate c)).
Proof.
  intros H. destruct (calculate_cases c) as [E | (_ & _ & _ & r & E)].
  - apply numeric_state_fields in E. destruct E as [E _]. rewrite E. exact H.
  - rewrite E. apply tidy_toString.
Qed.

Lemma tidy_backspace (c : Calculator) :
  tidy (currentInput c) -> tidy (currentInput (backspace c)).
Proof.
  intros H. unfold backspace.
  destruct (justCalculated c); [exact H|].
  destruct (1 <? String.length (currentInput c))%nat eqn:L; simpl.
  - apply tidy_slice; assumption.
  - apply tidy_zero.
Qed.

Lemma tidy_step (c : Calculator) (e : event) :
  tidy (currentInput c) -> tidy (currentInput (step c e)).
Proof.
  intros H. destruct e as [d|a|]; simpl.
  - apply tidy_inputNumber. exact H.
  - destruct a; simpl.
    + apply tidy_handleOperator. exact H.
    + apply tidy_calculate. exact H.
    + apply tidy_inputDecimal. exact H.
    + apply tidy_zero.
    + apply tidy_zero.
    + apply tidy_backspace. exact H.
  - destruct (timeouts c); [exact H | apply tidy_zero].
Qed.

(** C10: in every reachable state [currentInput] is not empty and does
    not begin with "0" followed by another digit. *)
Theorem no_redundant_leading_zero_reachable
    (primary secondary : element) (events : list event) :
  let c := run (constructor primary secondary) events in
  currentInput c <> ""
  /\ no_redundant_leading_zero (currentInput c) = true.
Proof.
  apply (run_invariant (fun c => tidy (currentInput c))).
  - intros. apply tidy_zero.
  - intros c e. apply tidy_step.
Qed.

(** ** Numerals under typing and backspace *)

Lemma is_digit_digit (d : digit) :
  exists a, digit_string d = String a "" /\ JS.is_digit a = true.
Proof. destruct d; eexists; split; reflexivity. Qed.

Lemma unsigned_digit (d : digit) : unsigned_numeral (digit_string d) = true.
Proof. destruct d; reflexivity. Qed.

Lemma all_digits_app_digit (s : string) (d : digit) :
  all_digits s = true -> all_digits (s ++ digit_string d) = true.
Proof.
  induction s as [|a s IH]; simpl.
  - intros _. destruct d; reflexivity.
  - intros H. apply andb_prop in H. destruct H as [Ha Hs].
    rewrite Ha, (IH Hs). reflexivity.
Qed.

Lemma digits_point_digits_app_digit (s : string) (d : digit) :
  digits_point_digits s = true -> digits_point_digits (s ++ digit_string d) = true.
Proof.
  induction s as [|a s IH]; simpl.
  - intros _. destruct d; reflexivity.
  - destruct (JS.is_digit a); [exact IH|].
    destruct (a =? ".")%char; [apply all_digits_app_digit | discriminate].
Qed.

Lemma unsigned_app_digit (s : string) (d : digit) :
  unsigned_numeral s = true -> unsigned_numeral (s ++ digit_string d) = true.
Proof.
  destruct s as [|a s]; simpl; [discriminate|].
  intros H. apply andb_prop in H. destruct H as [Ha Hs].
  rewrite Ha, (digits_point_digits_app_digit s d Hs). reflexivity.
Qed.

Lemma prefix_nil (s : string) : prefix "" s = true.
Proof. destruct s; reflexivity. Qed.

(** [s.indexOf('.') === -1] looks at every character. *)
Lemma index_point_cons (a : ascii) (s : string) :
  index 0 "." (String a s) = None ->
  (a =? ".")%char = false /\ index 0 "." s = None.
Proof.
  cbn [index prefix]. destruct (ascii_dec "." a) as [E|E].
  - rewrite prefix_nil. discriminate.
  - intros H. split.
    + apply Ascii.eqb_neq. congruence.
    + destruct (index 0 "." s); [discriminate | reflexivity].
Qed.

Lemma digits_point_digits_app_point (s : string) :
  digits_point_digits s = true -> index 0 "." s = None ->
  digits_point_digits (s ++ ".") = true.
Proof.
  induction s as [|a s IH]; simpl append.
  - reflexivity.
  - intros H I. apply index_point_cons in I. destruct I as [Ia Is].
    simpl in *. rewrite Ia in H.
    destruct (JS.is_digit a); [apply IH; assumption | discriminate].
Qed.

Lemma unsigned_app_point (s : string) :
  unsigned_numeral s = true -> index 0 "." s = None ->
  unsigned_numeral (s ++ ".") = true.
Proof.
  destruct s as [|a s]; [discriminate|].
  intros H I. apply index_point_cons in I. destruct I as [_ Is].
  simpl in *. apply andb_prop in H. destruct H as [Ha Hs].
  rewrite Ha, (digits_point_digits_app_point s Hs Is). reflexivity.
Qed.

Lemma all_digits_slice (s : string) :
  all_digits s = true -> all_digits (slice_0_m1 s) = true.
Proof.
  induction s as [|a s IH]; [reflexivity|].
  destruct s as [|b r]; [reflexivity|].
  rewrite slice_0_m1_cons. intros H. simpl in H. apply andb_prop in H.
  destruct H as [Ha Hs]. change (JS.is_digit a && all_digits (slice_0_m1 (String b r)) = true).
  rewrite Ha. apply IH. exact Hs.
Qed.

Lemma digits_point_digits_slice (s : string) :
  digits_point_digits s = true -> digits_point_digits (slice_0_m1 s) = true.
Proof.
  induction s as [|a s IH]; [reflexivity|].
  destruct s as [|b r]; [reflexivity|].
  rewrite slice_0_m1_cons. intros H.
  change ((if JS.is_digit a then digits_point_digits (String b r)
           else if (a =? ".")%char then all_digits (String b r) else false) = true) in H.
  change ((if JS.is_digit a then digits_point_digits (slice_0_m1 (String b r))
           else if (a =? ".")%char then all_digits (slice_0_m1 (String b r)) else false) = true).
  destruct (JS.is_digit a); [apply IH; exact H|].
  destruct (a =? ".")%char; [apply all_digits_slice; exact H | discriminate].
Qed.

Lemma unsigned_slice (s : string) :
  (1 <? String.length s)%nat = true ->
  unsigned_numeral s = true -> unsigned_numeral (slice_0_m1 s) = true.
Proof.
  intros L. destruct (long_string s L) as (a & b & r & ->).
  rewrite slice_0_m1_cons. unfold unsigned_numeral.
  intros H. apply andb_prop in H. destruct H as [Ha Hs].
  rewrite Ha. apply digits_point_digits_slice. exact Hs.
Qed.

Lemma prefix_refl (s : string) : prefix s s = true.
Proof.
  induction s as [|a s IH]; cbn [prefix]; [reflexivity|].
  destruct (ascii_dec a a); [exact IH | contradiction].
Qed.

Lemma prefix_slice (s t : string) :
  prefix s t = true -> prefix (slice_0_m1 s) t = true.
Proof.
  revert t. induction s as [|a s IH]; intros t; [intros _; apply prefix_nil|].
  destruct s as [|b r].
  - intros _. apply prefix_nil.
  - rewrite slice_0_m1_cons. destruct t as [|c t]; cbn [prefix]; [discriminate|].
    destruct (ascii_dec a c); [apply IH | discriminate].
Qed.

Lemma nonempty_prefix_refl (s : string) : s <> "" -> nonempty_prefix s s = true.
Proof.
  intros H. unfold nonempty_prefix. rewrite prefix_refl.
  apply String.eqb_neq in H. rewrite H. reflexivity.
Qed.

Lemma nonempty_prefix_slice (s t : string) :
  (1 <? String.length s)%nat = true ->
  nonempty_prefix s t = true -> nonempty_prefix (slice_0_m1 s) t = true.
Proof.
  unfold nonempty_prefix. intros L H. apply andb_prop in H. destruct H as [_ H].
  rewrite (prefix_slice s t H).
  pose proof (slice_0_m1_nonempty s L) as N. apply String.eqb_neq in N.
  rewrite N. reflexivity.
Qed.

Lemma unsigned_nonempty (s : string) : unsigned_numeral s = true -> s <> "".
Proof. destruct s; [discriminate|]. intros _. discriminate. Qed.

Lemma shape_of_nonempty cur o w j : shape_of cur o w j -> cur <> "".
Proof.
  unfold shape_of. destruct j; [|destruct w].
  - intros (_ & _ & x & ->). apply toString_nonempty.
  - intros [H | [x H]]; [apply unsigned_nonempty; exact H|].
    unfold nonempty_prefix in H. apply andb_prop in H. destruct H as [H _].
    apply negb_true_iff, String.eqb_neq in H. exact H.
  - apply unsigned_nonempty.
Qed.

(** ** The shape of the input is kept by every event *)

Lemma numeric_state_inputNumber (d : string) (c : Calculator) :
  numeric_state (inputNumber d c) =
    (if waitingForOperand c || justCalculated c then d
     else if (currentInput c =? "0")%string then d else currentInput c ++ d,
     previousInput c, operator c, false,
     if waitingForOperand c then justCalculated c else false).
Proof.
  unfold inputNumber.
  destruct (waitingForOperand c) eqn:W, (justCalculated c) eqn:J;
    unfold numeric_state; simpl; rewrite ?W, ?J; reflexivity.
Qed.

Lemma numeric_state_inputDecimal (c : Calculator) :
  numeric_state (inputDecimal c) =
    (if waitingForOperand c || justCalculated c then "0."
     else match index 0 "." (currentInput c) with
          | None => currentInput c ++ "."
          | Some _ => currentInput c
          end,
     previousInput c, operator c, false,
     if waitingForOperand c then justCalculated c else false).
Proof.
  unfold inputDecimal.
  destruct (waitingForOperand c) eqn:W, (justCalculated c) eqn:J;
    unfold numeric_state; simpl; rewrite ?W, ?J; try reflexivity.
  destruct (index 0 "." (currentInput c)); simpl; rewrite ?W, ?J; reflexivity.
Qed.

Lemma numeric_state_backspace (c : Calculator) :
  numeric_state (backspace c) =
    (if justCalculated c then currentInput c
     else if (1 <? String.length (currentInput c))%nat
          then slice_0_m1 (currentInput c) else "0",
     previousInput c, operator c, waitingForOperand c, justCalculated c).
Proof.
  unfold backspace. destruct (justCalculated c) eqn:J.
  - unfold numeric_state. rewrite J. reflexivity.
  - destruct (1 <? String.length (currentInput c))%nat;
      unfold numeric_state; simpl; rewrite J; reflexivity.
Qed.

Lemma input_shape_fields (c : Calculator) cur prev o w j :
  numeric_state c = (cur, prev, o, w, j) -> shape_of cur o w j -> input_shape c.
Proof.
  intros E H. apply numeric_state_fields in E.
  destruct E as (E1 & _ & E3 & E4 & E5).
  unfold input_shape. rewrite E1, E3, E4, E5. exact H.
Qed.

Lemma input_shape_same (c c' : Calculator) :
  numeric_state c' = numeric_state c -> input_shape c -> input_shape c'.
Proof. intros E H. exact (input_shape_fields c' _ _ _ _ _ E H). Qed.

Lemma shape_of_zero o w j :
  (j = true -> w = false /\ o = None) -> shape_of "0" o w j.
Proof.
  unfold shape_of. destruct j; [|destruct w].
  - intros H. destruct (H eq_refl) as [-> ->]. repeat split.
    exists zero. reflexivity.
  - intros _. left. reflexivity.
  - intros _. reflexivity.
Qed.

Lemma shape_of_flags cur o w j :
  shape_of cur o w j -> j = true -> w = false /\ o = None.
Proof. unfold shape_of. intros H ->. destruct H as (H1 & H2 & _). split; assumption. Qed.

(** Right after an operator, whatever the input was before. *)
Lemma shape_of_waiting cur o o' w j :
  shape_of cur o w j -> shape_of cur o' true false.
Proof.
  unfold shape_of. destruct j; [|destruct w].
  - intros (_ & _ & x & ->). right. exists x.
    apply nonempty_prefix_refl, toString_nonempty.
  - intros H. exact H.
  - intros H. left. exact H.
Qed.

Lemma input_shape_inputNumber (d : digit) (c : Calculator) :
  input_shape c -> input_shape (inputNumber (digit_string d) c).
Proof.
  intros H. apply (input_shape_fields _ _ _ _ _ _ (numeric_state_inputNumber _ c)).
  unfold input_shape in H. revert H.
  destruct (waitingForOperand c), (justCalculated c); unfold shape_of; simpl.
  - intros (W & _). discriminate.
  - intros _. apply unsigned_digit.
  - intros _. apply unsigned_digit.
  - intros H. destruct (currentInput c =? "0")%string.
    + apply unsigned_digit.
    + apply unsigned_app_digit. exact H.
Qed.

Lemma input_shape_inputDecimal (c : Calculator) :
  input_shape c -> input_shape (inputDecimal c).
Proof.
  intros H. apply (input_shape_fields _ _ _ _ _ _ (numeric_state_inputDecimal c)).
  unfold input_shape in H. revert H.
  destruct (waitingForOperand c), (justCalculated c); unfold shape_of; simpl.
  - intros (W & _). discriminate.
  - intros _. reflexivity.
  - intros _. reflexivity.
  - intros H. destruct (index 0 "." (currentInput c)) eqn:I.
    + exact H.
    + apply unsigned_app_point; assumption.
Qed.

Lemma input_shape_handleOperator (op : operator_name) (c : Calculator) :
  input_shape c -> input_shape (handleOperator op c).
Proof.
  intros H. destruct (handleOperator_cases op c) as [E | (W & J & [E | [r E]])].
  - exact (input_shape_same c _ E H).
  - unfold input_shape. rewrite W, J, E. exact (shape_of_waiting _ _ _ _ _ H).
  - unfold input_shape. rewrite W, J, E. right. exists r.
    apply nonempty_prefix_refl, toString_nonempty.
Qed.

Lemma input_shape_calculate (c : Calculator) :
  input_shape c -> input_shape (calculate c).
Proof.
  intros H. destruct (calculate_cases c) as [E | (W & J & O & r & E)].
  - exact (input_shape_same c _ E H).
  - unfold input_shape. rewrite W, J, O, E. repeat split. exists r. reflexivity.
Qed.

Lemma input_shape_clear (c : Calculator) : input_shape c -> input_shape (clear c).
Proof.
  intros H. unfold input_shape. simpl. apply shape_of_zero.
  exact (shape_of_flags _ _ _ _ H).
Qed.

Lemma input_shape_clearAll (c : Calculator) : input_shape (clearAll c).
Proof. unfold input_shape. simpl. reflexivity. Qed.

Lemma input_shape_backspace (c : Calculator) :
  input_shape c -> input_shape (backspace c).
Proof.
  intros H. apply (input_shape_fields _ _ _ _ _ _ (numeric_state_backspace c)).
  unfold input_shape in H. revert H.
  destruct (justCalculated c); [intros H; exact H|].
  destruct (1 <? String.length (currentInput c))%nat eqn:L.
  - unfold shape_of. destruct (waitingForOperand c).
    + intros [H | [x H]].
      * left. apply unsigned_slice; assumption.
      * right. exists x. apply nonempty_prefix_slice; assumption.
    + apply unsigned_slice. exact L.
  - intros _. apply shape_of_zero. discriminate.
Qed.

Lemma input_shape_step (c : Calculator) (e : event) :
  input_shape c -> input_shape (step c e).
Proof.
  intros H. destruct e as [d|a|]; simpl.
  - apply input_shape_inputNumber. exact H.
  - destruct a; simpl.
    + apply input_shape_handleOperator. exact H.
    + apply input_shape_calculate. exact H.
    + apply input_shape_inputDecimal. exact H.
    + apply input_shape_clear. exact H.
    + apply input_shape_clearAll.
    + apply input_shape_backspace. exact H.
  - destruct (timeouts c); [exact H | apply input_shape_clearAll].
Qed.

(** C3, as stated, fails: after 5 - 8 + the input is "-3", the string of
    the result, and the calculator waits for an operand; backspace leaves
    "-", which is no numeral, even partial, and parses to not-a-number. *)
Lemma backspace_leaves_malformed_input :
  let c :=
    run initial [Number D5; Action (Operator subtract); Number D8;
                 Action (Operator add)] in
  currentInput c = "-3"
  /\ waitingForOperand c = true
  /\ justCalculated c = false
  /\ currentInput (backspace c) = "-"
  /\ decimal_numeral (currentInput (backspace c)) = false
  /\ JS.isNaN (JS.parseFloat (currentInput (backspace c))) = true.
Proof. vm_compute. repeat split. Qed.

(** Results are held as [String(result)], which need not be a decimal
    numeral: 0.0000001 + 0 = leaves "1e-7". *)
Lemma result_in_exponent_notation :
  let c :=
    run initial
      [Action Decimal; Number D0; Number D0; Number D0; Number D0; Number D0;
       Number D0; Number D1; Action (Operator add); Number D0; Action Equals] in
  currentInput c = "1e-7"
  /\ justCalculated c = true
  /\ decimal_numeral (currentInput c) = false.
Proof. vm_compute. repeat split. Qed.

(** C3, amended: in every state reached from construction by the events
    of the calculator itself (a digit 0 to 9, the decimal point, an
    operator, equals, clear, clear-all, backspace, a timer of [showError]
    coming due), [currentInput] is not empty; with neither flag set it is
    an unsigned, possibly partial, decimal numeral; with [justCalculated]
    set it is the string of a number, and with [waitingForOperand] set a
    numeral or a non-empty prefix of the string of a number.  The raw keys
    and buttons of the adapters are not among these events: a key whose
    name holds a digit, or a button with an empty number, is given to
    [inputNumber] as it is (see [handleKeyPress] and
    [handleButtonClick]). *)
Theorem input_shape_reachable
    (primary secondary : element) (events : list event) :
  let c := run (constructor primary secondary) events in
  currentInput c <> "" /\ input_shape c.
Proof.
  intros c.
  assert (H : input_shape c).
  { apply (run_invariant input_shape).
    - intros. reflexivity.
    - apply input_shape_step. }
  split; [|exact H]. exact (shape_of_nonempty _ _ _ _ H).
Qed.

(** ** Typing a numeral *)

Lemma drop_points_snoc_digit (keys : list key) (d : digit) :
  drop_points (keys ++ [KDigit d])%list = (drop_points keys ++ [KDigit d])%list.
Proof.
  induction keys as [|[e|] keys IH]; simpl; [reflexivity| |exact IH].
  rewrite IH. reflexivity.
Qed.

Lemma first_point_only_snoc_digit (keys : list key) (d : digit) :
  first_point_only (keys ++ [KDigit d])%list = (first_point_only keys ++ [KDigit d])%list.
Proof.
  induction keys as [|[e|] keys IH]; simpl; [reflexivity| |].
  - rewrite IH. reflexivity.
  - rewrite drop_points_snoc_digit. reflexivity.
Qed.

Lemma drop_points_snoc_point (keys : list key) :
  drop_points (keys ++ [KPoint])%list = drop_points keys.
Proof.
  induction keys as [|[e|] keys IH]; simpl; [reflexivity| |exact IH].
  rewrite IH. reflexivity.
Qed.

Lemma first_point_only_snoc_point (keys : list key) :
  first_point_only (keys ++ [KPoint])%list =
    if has_point keys then first_point_only keys
    else (first_point_only keys ++ [KPoint])%list.
Proof.
  induction keys as [|[e|] keys IH]; simpl; [reflexivity| |].
  - rewrite IH. destruct (has_point keys); reflexivity.
  - rewrite drop_points_snoc_point. reflexivity.
Qed.

Lemma typed_text_app (keys keys' : list key) :
  typed_text (keys ++ keys')%list = typed_text keys ++ typed_text keys'.
Proof.
  induction keys as [|k keys IH]; simpl; [reflexivity|].
  rewrite IH, append_assoc. reflexivity.
Qed.

Lemma replace_leading_zero_cons (a b : ascii) (r : string) :
  replace_leading_zero (String a (String b r)) =
    if (a =? "0")%char && JS.is_digit b
    then replace_leading_zero (String b r)
    else String a (String b r).
Proof. reflexivity. Qed.

Lemma single_eqb_zero (a : ascii) :
  (String a "" =? "0")%string = (a =? "0")%char.
Proof.
  destruct (Ascii.eqb_spec a "0") as [->|N]; [reflexivity|].
  apply String.eqb_neq. congruence.
Qed.

(** A digit typed onto [s]: it replaces a text that comes down to "0",
    and is appended otherwise. *)
Lemma replace_leading_zero_app_digit (s : string) (d : digit) :
  replace_leading_zero (s ++ digit_string d) =
    if (replace_leading_zero s =? "0")%string then digit_string d
    else replace_leading_zero s ++ digit_string d.
Proof.
  destruct (is_digit_digit d) as (dc & -> & Hd).
  induction s as [|a s IH]; [reflexivity|].
  destruct s as [|b r].
  - change (String a "" ++ String dc "") with (String a (String dc "")).
    rewrite replace_leading_zero_cons, Hd, andb_true_r.
    change (replace_leading_zero (String a "")) with (String a "").
    rewrite single_eqb_zero. destruct (a =? "0")%char; reflexivity.
  - change (String a (String b r) ++ String dc "")
      with (String a (String b r ++ String dc "")).
    change (String b r ++ String dc "") with (String b (r ++ String dc "")) at 1.
    rewrite !replace_leading_zero_cons.
    destruct ((a =? "0")%char && JS.is_digit b).
    + exact IH.
    + assert (E : (String a (String b r) =? "0")%string = false)
        by (apply String.eqb_neq; discriminate).
      rewrite E. reflexivity.
Qed.

(** A point typed onto [s] is appended. *)
Lemma replace_leading_zero_app_point (s : string) :
  replace_leading_zero (s ++ ".") = replace_leading_zero s ++ ".".
Proof.
  induction s as [|a s IH]; [reflexivity|].
  destruct s as [|b r].
  - change (String a "" ++ ".") with (String a (String "." "")).
    rewrite replace_leading_zero_cons.
    change (JS.is_digit ".") with false. rewrite andb_false_r. reflexivity.
  - change (String a (String b r) ++ ".") with (String a (String b r ++ ".")).
    change (String b r ++ ".") with (String b (r ++ ".")) at 1.
    rewrite !replace_leading_zero_cons.
    destruct ((a =? "0")%char && JS.is_digit b); [exact IH | reflexivity].
Qed.

Lemma has_dot_app (s t : string) : has_dot (s ++ t) = has_dot s || has_dot t.
Proof.
  induction s as [|a s IH]; simpl; [reflexivity|].
  rewrite IH, orb_assoc. reflexivity.
Qed.

Lemma has_dot_replace_leading_zero (s : string) :
  has_dot (replace_leading_zero s) = has_dot s.
Proof.
  induction s as [|a s IH]; [reflexivity|].
  destruct s as [|b r]; [reflexivity|].
  rewrite replace_leading_zero_cons.
  destruct ((a =? "0")%char && JS.is_digit b) eqn:T; [|reflexivity].
  rewrite IH. apply andb_prop in T. destruct T as [T _].
  apply Ascii.eqb_eq in T. subst a. reflexivity.
Qed.

Lemma has_dot_drop_points (keys : list key) :
  has_dot (typed_text (drop_points keys)) = false.
Proof.
  induction keys as [|[d|] keys IH]; simpl; [reflexivity| |exact IH].
  rewrite has_dot_app, IH. destruct d; reflexivity.
Qed.

Lemma has_dot_typed_text (keys : list key) :
  has_dot (typed_text (first_point_only keys)) = has_point keys.
Proof.
  induction keys as [|[d|] keys IH]; simpl; [reflexivity| |reflexivity].
  rewrite has_dot_app, IH. destruct d; reflexivity.
Qed.

Lemma has_dot_concatenation_rule (keys : list key) :
  has_dot (concatenation_rule keys) = has_point keys.
Proof.
  unfold concatenation_rule.
  rewrite has_dot_replace_leading_zero, has_dot_app, has_dot_typed_text.
  reflexivity.
Qed.

Lemma index_has_dot (s : string) :
  match index 0 "." s with
  | None => has_dot s = false
  | Some _ => has_dot s = true
  end.
Proof.
  induction s as [|a s IH]; [reflexivity|].
  cbn [index prefix has_dot]. destruct (ascii_dec "." a) as [E|E].
  - rewrite prefix_nil. subst a. reflexivity.
  - assert (N : (a =? ".")%char = false) by (apply Ascii.eqb_neq; congruence).
    rewrite N. destruct (index 0 "." s); exact IH.
Qed.

Lemma concatenation_rule_snoc_digit (keys : list key) (d : digit) :
  concatenation_rule (keys ++ [KDigit d])%list =
    if (concatenation_rule keys =? "0")%string then digit_string d
    else concatenation_rule keys ++ digit_string d.
Proof.
  unfold concatenation_rule.
  rewrite first_point_only_snoc_digit, typed_text_app.
  change (typed_text [KDigit d]) with (digit_string d ++ "").
  rewrite append_nil_r, <- append_assoc.
  apply replace_leading_zero_app_digit.
Qed.

Lemma concatenation_rule_snoc_point (keys : list key) :
  concatenation_rule (keys ++ [KPoint])%list =
    if has_point keys then concatenation_rule keys
    else concatenation_rule keys ++ ".".
Proof.
  unfold concatenation_rule. rewrite first_point_only_snoc_point.
  destruct (has_point keys); [reflexivity|].
  rewrite typed_text_app. change (typed_text [KPoint]) with ".".
  rewrite <- append_assoc. apply replace_leading_zero_app_point.
Qed.

(** Typing keeps both flags clear and follows the concatenation rule. *)
Lemma type_keys_state (primary secondary : element) (keys : list key) :
  let c := type_keys (constructor primary secondary) keys in
  waitingForOperand c = false /\ justCalculated c = false
  /\ currentInput c = concatenation_rule keys.
Proof.
  induction keys as [|k keys IH] using rev_ind; [repeat split|].
  unfold type_keys in *. rewrite map_app. simpl map. rewrite run_snoc.
  simpl in IH. destruct IH as (W & J & C).
  destruct k as [d|]; simpl.
  - pose proof (numeric_state_inputNumber (digit_string d)
                  (run (constructor primary secondary) (map key_event keys))) as E.
    rewrite W, J, C in E. apply numeric_state_fields in E.
    destruct E as (E1 & _ & _ & E4 & E5).
    rewrite concatenation_rule_snoc_digit. repeat split; assumption.
  - pose proof (numeric_state_inputDecimal
                  (run (constructor primary secondary) (map key_event keys))) as E.
    rewrite W, J, C in E. apply numeric_state_fields in E.
    destruct E as (E1 & _ & _ & E4 & E5).
    rewrite concatenation_rule_snoc_point.
    pose proof (index_has_dot (concatenation_rule keys)) as I.
    rewrite has_dot_concatenation_rule in I.
    split; [exact E4|]. split; [exact E5|].
    etransitivity; [exact E1|]. cbn [orb].
    destruct (index 0 "." (concatenation_rule keys)); rewrite I; reflexivity.
Qed.

(** The decimal point is exclusive, and zeros typed first collapse. *)
Lemma typing_examples :
  currentInput (type_keys initial [KDigit D1; KPoint; KPoint; KDigit D5]) = "1.5"
  /\ concatenation_rule [KDigit D1; KPoint; KPoint; KDigit D5] = "1.5"
  /\ concatenation_rule [KDigit D0; KDigit D0; KDigit D7] = "7"
  /\ concatenation_rule [KPoint; KDigit D5; KPoint] = "0.5"
  /\ concatenation_rule [] = "0".
Proof. vm_compute. repeat split. Qed.

(** C5: after any sequence of digit and decimal-point keys typed from
    the initial state, [currentInput] is the left-to-right concatenation
    of the keys onto "0", with every decimal point after the first
    ignored and the leading "0" replaced by the digit that follows it. *)
Theorem typing_follows_concatenation_rule
    (primary secondary : element) (keys : list key) :
  currentInput (type_keys (constructor primary secondary) keys)
  = concatenation_rule keys.
Proof. apply (type_keys_state primary secondary keys). Qed.

(* ================================================================== *)
(** * Further properties of the class *)
(* ================================================================== *)

(** ** The previous operand, the operator and the flags *)

Lemma pending_consistent_fields (c : Calculator) cur prev o w j :
  numeric_state c = (cur, prev, o, w, j) ->
  (prev = VString "" \/ exists x, prev = VNumber x) ->
  (o = None <-> prev = VString "") ->
  (w = true -> o <> None) ->
  (j = true -> w = false) ->
  pending_consistent c.
Proof.
  intros E H1 H2 H3 H4. apply numeric_state_fields in E.
  destruct E as (_ & E2 & E3 & E4 & E5).
  unfold pending_consistent. rewrite E2, E3, E4, E5. repeat split; tauto.
Qed.

Lemma pending_consistent_same (c c' : Calculator) :
  previousInput c' = previousInput c -> operator c' = operator c ->
  waitingForOperand c' = waitingForOperand c ->
  justCalculated c' = justCalculated c ->
  pending_consistent c -> pending_consistent c'.
Proof.
  intros E2 E3 E4 E5. unfold pending_consistent. rewrite E2, E3, E4, E5. tauto.
Qed.

Lemma pending_consistent_typing (c c' : Calculator) cur :
  numeric_state c' =
    (cur, previousInput c, operator c, false,
     if waitingForOperand c then justCalculated c else false) ->
  pending_consistent c -> pending_consistent c'.
Proof.
  intros E (H1 & H2 & _ & _).
  apply (pending_consistent_fields _ _ _ _ _ _ E); try assumption.
  - discriminate.
  - reflexivity.
Qed.

Lemma pending_consistent_handleOperator (op : operator_name) (c : Calculator) :
  pending_consistent c -> pending_consistent (handleOperator op c).
Proof.
  intros H. pose proof (numeric_state_handleOperator op c) as E.
  destruct (is_empty_string (previousInput c)) eqn:P.
  { apply (pending_consistent_fields _ _ _ _ _ _ E).
    - right. eexists. reflexivity.
    - split; discriminate.
    - discriminate.
    - discriminate. }
  destruct (evaluates c).
  - destruct (fst (performCalculation c)) as [r|].
    + apply (pending_consistent_fields _ _ _ _ _ _ E).
      * right. eexists. reflexivity.
      * split; discriminate.
      * discriminate.
      * discriminate.
    + apply numeric_state_fields in E. destruct E as (_ & E2 & E3 & E4 & E5).
      exact (pending_consistent_same c _ E2 E3 E4 E5 H).
  - destruct H as (H1 & _).
    apply (pending_consistent_fields _ _ _ _ _ _ E).
    + exact H1.
    + split; [discriminate|]. intros Z. rewrite Z in P. discriminate.
    + discriminate.
    + discriminate.
Qed.

Lemma pending_consistent_calculate (c : Calculator) :
  pending_consistent c -> pending_consistent (calculate c).
Proof.
  intros H. pose proof (numeric_state_calculate c) as E.
  assert (S : numeric_state (calculate c) = numeric_state c -> pending_consistent (calculate c)).
  { intros E'. apply numeric_state_fields in E'.
    destruct E' as (_ & E2 & E3 & E4 & E5).
    exact (pending_consistent_same c _ E2 E3 E4 E5 H). }
  destruct (evaluates c); [|exact (S E)].
  destruct (fst (performCalculation c)) as [r|]; [|exact (S E)].
  apply (pending_consistent_fields _ _ _ _ _ _ E).
  - left. reflexivity.
  - split; reflexivity.
  - discriminate.
  - reflexivity.
Qed.

Lemma pending_consistent_clearAll (c : Calculator) : pending_consistent (clearAll c).
Proof.
  unfold pending_consistent. simpl. repeat split; try discriminate.
  left. reflexivity.
Qed.

Lemma pending_consistent_step (c : Calculator) (e : event) :
  pending_consistent c -> pending_consistent (step c e).
Proof.
  intros H. destruct e as [d|a|]; simpl.
  - exact (pending_consistent_typing c _ _ (numeric_state_inputNumber _ c) H).
  - destruct a; simpl.
    + apply pending_consistent_handleOperator. exact H.
    + apply pending_consistent_calculate. exact H.
    + exact (pending_consistent_typing c _ _ (numeric_state_inputDecimal c) H).
    + exact H.
    + apply pending_consistent_clearAll.
    + pose proof (numeric_state_backspace c) as E.
      apply numeric_state_fields in E. destruct E as (_ & E2 & E3 & E4 & E5).
      exact (pending_consistent_same c _ E2 E3 E4 E5 H).
  - destruct (timeouts c); [exact H | apply pending_consistent_clearAll].
Qed.

(** X1: in every reachable state the previous operand is the empty
    string or a number; no operator is pending exactly when the previous
    operand is the empty string; the calculator waits for an operand only
    with an operator pending; and the two flags are never set together. *)
Theorem pending_consistent_reachable
    (primary secondary : element) (events : list event) :
  let c := run (constructor primary secondary) events in
  (previousInput c = VString "" \/ exists x, previousInput c = VNumber x)
  /\ (operator c = None <-> previousInput c = VString "")
  /\ (waitingForOperand c = true -> operator c <> None)
  /\ (waitingForOperand c && justCalculated c = false).
Proof.
  intros c.
  assert (H : pending_consistent c).
  { apply (run_invariant pending_consistent).
    - intros. unfold pending_consistent. simpl. repeat split; try discriminate.
      left. reflexivity.
    - apply pending_consistent_step. }
  destruct H as (H1 & H2 & H3 & H4). repeat split; try tauto.
  destruct (justCalculated c); [rewrite (H4 eq_refl)|]; 
    destruct (waitingForOperand c); reflexivity.
Qed.

Lemma pending_consistent_reachable_witness :
  operator (run initial [Number D5; Action (Operator add)]) <> None.
Proof.
  apply (pending_consistent_reachable blank blank
           [Number D5; Action (Operator add)]).
  reflexivity.
Defined.

(** ** What the primary display shows *)

Lemma digit_char_not_E (d : Z) : 0 <= d < 10 -> JS.digit_char d <> "E"%char.
Proof.
  intros H.
  assert (C : d = 0 \/ d = 1 \/ d = 2 \/ d = 3 \/ d = 4 \/ d = 5 \/ d = 6
              \/ d = 7 \/ d = 8 \/ d = 9) by lia.
  repeat (destruct C as [-> | C]; [discriminate|]). subst d. discriminate.
Qed.

Lemma head_of_Error (a : ascii) (r : string) :
  String a r = "Error" -> a = "E"%char.
Proof. intros E. injection E as E1 _. exact E1. Qed.

(** A text that starts with a decimal digit. *)
Lemma digits_fixed_not_Error (k : nat) (z : Z) (rest : string) :
  (JS.digits_fixed (S k) z ++ rest)%string <> "Error".
Proof.
  simpl. intros E. apply head_of_Error in E.
  exact (digit_char_not_E _ (Z.mod_pos_bound _ 10 eq_refl) E).
Qed.

Lemma num_digits_positive (z : Z) : exists k, JS.num_digits z = S k.
Proof.
  unfold JS.num_digits. simpl. destruct (z <? 10); eexists; reflexivity.
Qed.

Lemma toExponential_not_Error (f : nat) (x : JS.number) :
  JS.toExponential f x <> "Error".
Proof.
  destruct x as [s|s| |s m e]; unfold JS.toExponential.
  - discriminate.
  - destruct s; discriminate.
  - discriminate.
  - destruct (JS.ratio_of m e) as [p q].
    destruct (JS.scaled p q (Z.of_nat f - (JS.magnitude10 p q - 1))) as [P Q].
    destruct ((2 * P + Q) / (2 * Q) =? 10 ^ (Z.of_nat f + 1)).
    + destruct s; [discriminate|].
      cbn [JS.digits_fixed substring append]. intros E. apply head_of_Error in E.
      exact (digit_char_not_E _ (Z.mod_pos_bound _ 10 eq_refl) E).
    + destruct s; [discriminate|].
      cbn [JS.digits_fixed substring append]. intros E. apply head_of_Error in E.
      exact (digit_char_not_E _ (Z.mod_pos_bound _ 10 eq_refl) E).
Qed.

Lemma toLocaleString_not_Error (f : nat) (x : JS.number) :
  JS.toLocaleString f x <> "Error".
Proof.
  destruct x as [s|s| |s m e]; unfold JS.toLocaleString.
  - destruct s; discriminate.
  - destruct s; discriminate.
  - discriminate.
  - destruct (JS.shortest m e) as [[d k10] n10].
    destruct (JS.scaled d 1 (n10 - k10)) as [p q].
    destruct s; [discriminate|].
    unfold JS.Z_to_string.
    destruct (num_digits_positive ((2 * p * 10 ^ Z.of_nat f + q) / (2 * q) / 10 ^ Z.of_nat f))
      as [k ->].
    cbn [append]. apply digits_fixed_not_Error.
Qed.

Lemma formatNumber_not_Error (v : value) : formatNumber v <> "Error".
Proof.
  unfold formatNumber.
  destruct (JS.isNaN (parseFloat v)); [discriminate|].
  match goal with |- (if ?b then _ else _) <> _ => destruct b end.
  - apply toExponential_not_Error.
  - apply toLocaleString_not_Error.
Qed.

Lemma performCalculation_success (c c' : Calculator) (r : JS.number) :
  performCalculation c = (Some r, c') -> c' = c.
Proof.
  unfold performCalculation.
  destruct (JS.isNaN (parseFloat (previousInput c))),
    (JS.isNaN (parseFloat (VString (currentInput c)))),
    (operator c) as [[ | | | ]|],
    (JS.strict_eq (parseFloat (VString (currentInput c))) zero);
    simpl; intros E; inversion E; reflexivity.
Qed.

(** How [handleOperator] and [calculate] end: by [updateDisplay], in the
    state they found, or in that state after [showError]. *)
Lemma handleOperator_ends (op : operator_name) (c : Calculator) :
  (exists c0, handleOperator op c = updateDisplay c0 /\ timeouts c0 = timeouts c)
  \/ handleOperator op c = c
  \/ handleOperator op c = showError "Cannot divide by zero" c.
Proof.
  assert (U : forall c0, timeouts c0 = timeouts c ->
    exists c1, updateDisplay (updateSecondaryDisplay false
                 (set_justCalculated false (set_operator (Some op)
                    (set_waitingForOperand true c0)))) = updateDisplay c1
               /\ timeouts c1 = timeouts c).
  { intros c0 T. eexists. split; [reflexivity|].
    unfold updateSecondaryDisplay.
    match goal with |- context [if ?b then _ else _] => destruct b end;
      [exact T|].
    match goal with |- context [if ?b then _ else _] => destruct b end; exact T. }
  unfold handleOperator.
  destruct (is_empty_string (previousInput c)); [left; apply U; reflexivity|].
  destruct (operator c); [|left; apply U; reflexivity].
  destruct (waitingForOperand c); [left; apply U; reflexivity|]. simpl negb. cbv iota.
  pose proof (performCalculation_state c) as E.
  pose proof (performCalculation_success c) as S.
  destruct (performCalculation c) as [[r|] c']; simpl in E.
  - left. apply U. rewrite (S c' r eq_refl). reflexivity.
  - right. subst c'. destruct (divides_by_zero c); [right | left]; reflexivity.
Qed.

Lemma calculate_ends (c : Calculator) :
  (exists c0, calculate c = updateDisplay c0 /\ timeouts c0 = timeouts c)
  \/ calculate c = c
  \/ calculate c = showError "Cannot divide by zero" c.
Proof.
  unfold calculate.
  destruct (has_pending c && negb (waitingForOperand c)); [|right; left; reflexivity].
  pose proof (performCalculation_state c) as E.
  pose proof (performCalculation_success c) as S.
  destruct (performCalculation c) as [[r|] c']; simpl in E.
  - left. eexists. split; [reflexivity|]. rewrite (S c' r eq_refl). simpl.
    unfold updateSecondaryDisplay.
    match goal with |- context [if ?b then _ else _] => destruct b end;
      [reflexivity|].
    match goal with |- context [if ?b then _ else _] => destruct b end;
      reflexivity.
  - right. subst c'. destruct (divides_by_zero c); [right | left]; reflexivity.
Qed.

Lemma display_consistent_updateDisplay (c : Calculator) :
  display_consistent (updateDisplay c).
Proof. left. reflexivity. Qed.

Lemma display_consistent_showError (message : string) (c : Calculator) :
  display_consistent (showError message c).
Proof. right. split; [reflexivity | simpl; lia]. Qed.

Lemma display_consistent_step (c : Calculator) (e : event) :
  display_consistent c -> display_consistent (step c e).
Proof.
  intros H. destruct e as [d|a|]; simpl.
  - apply display_consistent_updateDisplay.
  - destruct a; simpl; try apply display_consistent_updateDisplay.
    + destruct (handleOperator_ends op c) as [(c0 & -> & _) | [-> | ->]].
      * apply display_consistent_updateDisplay.
      * exact H.
      * apply display_consistent_showError.
    + destruct (calculate_ends c) as [(c0 & -> & _) | [-> | ->]].
      * apply display_consistent_updateDisplay.
      * exact H.
      * apply display_consistent_showError.
    + unfold backspace. destruct (justCalculated c); [exact H|].
      apply display_consistent_updateDisplay.
  - destruct (timeouts c); [exact H | apply display_consistent_updateDisplay].
Qed.

Lemma display_consistent_reachable
    (primary secondary : element) (events : list event) :
  display_consistent (run (constructor primary secondary) events).
Proof.
  apply (run_invariant display_consistent).
  - intros. apply display_consistent_updateDisplay.
  - apply display_consistent_step.
Qed.

(** X2: in every reachable state the primary display shows either the
    formatted current input, without the error class, or "Error" with the
    error class; the text is "Error" exactly when the class is set. *)
Theorem primary_display_reachable
    (primary secondary : element) (events : list event) :
  let c := run (constructor primary secondary) events in
  (displayPrimary c = mkElement (formatNumber (VString (currentInput c))) false
   \/ displayPrimary c = mkElement "Error" true)
  /\ (textContent (displayPrimary c) = "Error"
      <-> display_error (displayPrimary c) = true).
Proof.
  intros c.
  destruct (display_consistent_reachable primary secondary events) as [H | [H _]];
    fold c in H; rewrite H; (split; [tauto|]); simpl.
  - split; [|discriminate].
    intros E. destruct (formatNumber_not_Error _ E).
  - split; reflexivity.
Qed.

Lemma primary_display_reachable_witness :
  display_error
    (displayPrimary
       (run initial [Number D5; Action (Operator divide); Number D0;
                     Action Equals])) = true.
Proof.
  apply (primary_display_reachable blank blank
           [Number D5; Action (Operator divide); Number D0; Action Equals]).
  vm_compute. reflexivity.
Defined.

(** X3: in every reachable state that shows the error, a timer of
    [showError] is pending, and when it comes due the five state fields
    and the primary display are as at construction and the secondary
    display is empty. *)
Theorem error_display_is_cleared_by_timer
    (primary secondary : element) (events : list event) :
  let c := run (constructor primary secondary) events in
  display_error (displayPrimary c) = true ->
  (0 < timeouts c)%nat
  /\ numeric_state (step c TimerFired) = ("0", VString "", None, false, false)
  /\ displayPrimary (step c TimerFired) = mkElement "0" false
  /\ textContent (displaySecondary (step c TimerFired)) = "".
Proof.
  intros c E.
  destruct (display_consistent_reachable primary secondary events) as [H | [_ H]];
    fold c in H.
  - unfold display_synced in H. rewrite H in E. discriminate.
  - split; [exact H|]. simpl. destruct (timeouts c) as [|n]; [lia|].
    apply clearAll_resets.
Qed.

Lemma error_display_is_cleared_by_timer_witness :
  let c := run initial [Number D5; Action (Operator divide); Number D0;
                        Action Equals] in
  (0 < timeouts c)%nat
  /\ numeric_state (step c TimerFired) = ("0", VString "", None, false, false)
  /\ displayPrimary (step c TimerFired) = mkElement "0" false
  /\ textContent (displaySecondary (step c TimerFired)) = "".
Proof.
  apply (error_display_is_cleared_by_timer blank blank
           [Number D5; Action (Operator divide); Number D0; Action Equals]).
  vm_compute. reflexivity.
Defined.

(** ** Pending timers *)

Lemma timeouts_user_step (c : Calculator) (e : event) :
  user_event e -> (timeouts c <= timeouts (step c e))%nat.
Proof.
  intros U. destruct e as [d|a|]; [| |destruct (U eq_refl)]; simpl.
  - unfold inputNumber.
    destruct (waitingForOperand c), (justCalculated c); simpl; lia.
  - destruct a; simpl.
    + destruct (handleOperator_ends op c) as [(c0 & -> & T) | [-> | ->]];
        simpl; lia.
    + destruct (calculate_ends c) as [(c0 & -> & T) | [-> | ->]]; simpl; lia.
    + unfold inputDecimal.
      destruct (waitingForOperand c), (justCalculated c); simpl; try lia.
      destruct (index 0 "." (currentInput c)); simpl; lia.
    + lia.
    + lia.
    + unfold backspace. destruct (justCalculated c); [lia|].
      destruct (1 <? String.length (currentInput c))%nat; simpl; lia.
Qed.

Lemma timeouts_user_events (events : list event) :
  forall c, Forall user_event events -> (timeouts c <= timeouts (run c events))%nat.
Proof.
  induction events as [|e events IH]; intros c F; simpl; [lia|].
  inversion F as [|? ? Ue Fe]; subst.
  pose proof (timeouts_user_step c e Ue). pose proof (IH (step c e) Fe).
  unfold run in *. lia.
Qed.

(** X4: no event of the user cancels a pending timer of [showError], not
    even clear-all: whatever is entered after an error, the timer still
    comes due and resets the five state fields. *)
Theorem pending_timer_outlives_user_events (c : Calculator) (events : list event) :
  (0 < timeouts c)%nat ->
  Forall user_event events ->
  (timeouts c <= timeouts (run c events))%nat
  /\ numeric_state (step (run c events) TimerFired)
     = ("0", VString "", None, false, false).
Proof.
  intros T F. pose proof (timeouts_user_events events c F) as L.
  split; [exact L|]. simpl.
  destruct (timeouts (run c events)) as [|n]; [lia|]. reflexivity.
Qed.

Lemma pending_timer_outlives_user_events_witness :
  let c := run initial [Number D5; Action (Operator divide); Number D0;
                        Action Equals] in
  let typed := [Action ClearAll; Number D7; Number D2] in
  currentInput (run c typed) = "72"
  /\ (timeouts c <= timeouts (run c typed))%nat
  /\ numeric_state (step (run c typed) TimerFired)
     = ("0", VString "", None, false, false).
Proof.
  intros c typed. split; [vm_compute; reflexivity|].
  apply (pending_timer_outlives_user_events c typed).
  - vm_compute. lia.
  - repeat constructor; discriminate.
Defined.

(** ** Operators and [=] composed *)

Lemma evaluates_fields (c c' : Calculator) :
  numeric_state c' = numeric_state c -> evaluates c' = evaluates c.
Proof.
  intros E. apply numeric_state_fields in E. destruct E as (_ & E2 & E3 & E4 & _).
  unfold evaluates, has_pending. rewrite E2, E3, E4. reflexivity.
Qed.

Lemma performCalculation_fields (c c' : Calculator) :
  numeric_state c' = numeric_state c ->
  fst (performCalculation c') = fst (performCalculation c).
Proof.
  intros E. apply numeric_state_fields in E. destruct E as (E1 & E2 & E3 & _).
  rewrite !performCalculation_result.
  unfold not_a_number, divides_by_zero, raw_result. rewrite E1, E2, E3.
  reflexivity.
Qed.

(** X5: an operator pressed right after another only replaces it: the
    state fields after the two are those after the second alone (a
    pending operation is evaluated once, with the operator that was
    pending). *)
Theorem second_operator_replaces_first (op1 op2 : operator_name) (c : Calculator) :
  numeric_state (handleOperator op2 (handleOperator op1 c))
  = numeric_state (handleOperator op2 c).
Proof.
  pose proof (numeric_state_handleOperator op1 c) as E1.
  rewrite (numeric_state_handleOperator op2 (handleOperator op1 c)).
  rewrite (numeric_state_handleOperator op2 c).
  destruct (is_empty_string (previousInput c)) eqn:P.
  { apply numeric_state_fields in E1. destruct E1 as (F1 & F2 & F3 & F4 & F5).
    unfold evaluates, has_pending. rewrite F1, F2, F3, F4. reflexivity. }
  destruct (evaluates c) eqn:V.
  - destruct (fst (performCalculation c)) as [r|] eqn:R.
    + apply numeric_state_fields in E1. destruct E1 as (F1 & F2 & F3 & F4 & F5).
      unfold evaluates, has_pending. rewrite F1, F2, F3, F4. reflexivity.
    + rewrite (evaluates_fields c _ E1), V, (performCalculation_fields c _ E1), R.
      apply numeric_state_fields in E1. destruct E1 as (F1 & F2 & F3 & F4 & F5).
      rewrite F2, P. unfold numeric_state. rewrite F1, F2, F3, F4, F5. reflexivity.
  - apply numeric_state_fields in E1. destruct E1 as (F1 & F2 & F3 & F4 & F5).
    unfold evaluates, has_pending. rewrite F1, F2, F3, F4, P. reflexivity.
Qed.

(** X6: [=] pressed twice is [=] pressed once, on the five state fields:
    after a result no operator is pending, and a failed evaluation fails
    again. *)
Theorem calculate_idempotent (c : Calculator) :
  numeric_state (calculate (calculate c)) = numeric_state (calculate c).
Proof.
  pose proof (numeric_state_calculate c) as E1.
  rewrite (numeric_state_calculate (calculate c)).
  destruct (evaluates c) eqn:V.
  - destruct (fst (performCalculation c)) as [r|] eqn:R.
    + apply numeric_state_fields in E1. destruct E1 as (F1 & F2 & F3 & F4 & F5).
      unfold evaluates, has_pending. rewrite F3. reflexivity.
    + rewrite (evaluates_fields c _ E1), V, (performCalculation_fields c _ E1), R.
      reflexivity.
  - rewrite (evaluates_fields c _ E1), V. reflexivity.
Qed.

(** ** Typing and erasing *)

Lemma slice_0_m1_app_char (s : string) (a : ascii) :
  slice_0_m1 (s ++ String a "") = s.
Proof.
  induction s as [|b s IH]; [reflexivity|].
  destruct s as [|b' s].
  - reflexivity.
  - change (String b (String b' s) ++ String a "")
      with (String b (String b' (s ++ String a ""))).
    rewrite slice_0_m1_cons. f_equal. exact IH.
Qed.

Lemma length_app_char (s : string) (a : ascii) :
  s <> "" -> (1 <? String.length (s ++ String a ""))%nat = true.
Proof.
  destruct s as [|b s]; [contradiction|]. intros _.
  destruct s; reflexivity.
Qed.

(** X7: while a numeral is being typed (neither flag set, the input not
    empty), backspace undoes a digit: the five state fields after a digit
    and a backspace are those of before, and the display shows the input
    of before. *)
Theorem backspace_undoes_digit (d : digit) (c : Calculator) :
  waitingForOperand c = false ->
  justCalculated c = false ->
  currentInput c <> "" ->
  let c' := backspace (inputNumber (digit_string d) c) in
  numeric_state c' = numeric_state c
  /\ displayPrimary c' = mkElement (formatNumber (VString (currentInput c))) false.
Proof.
  intros W J N c'.
  assert (C : currentInput c' = currentInput c).
  { pose proof (numeric_state_backspace (inputNumber (digit_string d) c)) as B.
    pose proof (numeric_state_inputNumber (digit_string d) c) as I.
    rewrite W, J in I. simpl in I.
    apply numeric_state_fields in I. destruct I as (I1 & _ & _ & _ & I5).
    rewrite I1, I5 in B.
    apply numeric_state_fields in B. destruct B as (B1 & _).
    fold c' in B1. rewrite B1.
    destruct (is_digit_digit d) as (a & -> & _).
    destruct (currentInput c =? "0")%string eqn:Z.
    - apply String.eqb_eq in Z. rewrite Z. reflexivity.
    - rewrite (length_app_char _ a N). apply slice_0_m1_app_char. }
  split.
  - pose proof (numeric_state_backspace (inputNumber (digit_string d) c)) as B.
    pose proof (numeric_state_inputNumber (digit_string d) c) as I.
    rewrite W, J in I. simpl in I.
    apply numeric_state_fields in I. destruct I as (_ & I2 & I3 & I4 & I5).
    apply numeric_state_fields in B. destruct B as (_ & B2 & B3 & B4 & B5).
    fold c' in B2, B3, B4, B5.
    unfold numeric_state. rewrite C, B2, B3, B4, B5, I2, I3, I4, I5, W, J.
    reflexivity.
  - pose proof (numeric_state_inputNumber (digit_string d) c) as I.
    rewrite W, J in I. apply numeric_state_fields in I.
    destruct I as (_ & _ & _ & _ & I5).
    rewrite <- C. unfold c', backspace. rewrite I5.
    destruct (1 <? String.length _)%nat; reflexivity.
Qed.

Lemma backspace_undoes_digit_witness :
  let c := run initial [Number D1; Action Decimal; Number D2] in
  let c' := backspace (inputNumber (digit_string D5) c) in
  currentInput (inputNumber (digit_string D5) c) = "1.25"
  /\ numeric_state c' = numeric_state c
  /\ displayPrimary c' = mkElement (formatNumber (VString (currentInput c))) false.
Proof.
  intros c c'. split; [vm_compute; reflexivity|].
  apply (backspace_undoes_digit D5 c).
  - reflexivity.
  - reflexivity.
  - vm_compute. discriminate.
Defined.

Lemma index_point_app_point (s : string) : index 0 "." (s ++ ".") <> None.
Proof.
  pose proof (index_has_dot (s ++ ".")) as H. rewrite has_dot_app in H.
  simpl has_dot in H. intros E. rewrite E in H.
  rewrite orb_true_r in H. discriminate.
Qed.

(** X8: unless both flags are set, a second decimal point in a row
    changes nothing at all: [inputDecimal] twice is [inputDecimal]
    once. *)
Theorem inputDecimal_idempotent (c : Calculator) :
  waitingForOperand c && justCalculated c = false ->
  inputDecimal (inputDecimal c) = inputDecimal c.
Proof.
  intros F.
  pose proof (numeric_state_inputDecimal c) as E.
  apply numeric_state_fields in E. destruct E as (E1 & _ & _ & E4 & E5).
  assert (J : justCalculated (inputDecimal c) = false).
  { rewrite E5. destruct (waitingForOperand c); [exact F | reflexivity]. }
  assert (I : index 0 "." (currentInput (inputDecimal c)) <> None).
  { rewrite E1. destruct (waitingForOperand c || justCalculated c).
    - discriminate.
    - destruct (index 0 "." (currentInput c)) eqn:I0.
      + rewrite I0. discriminate.
      + apply index_point_app_point. }
  unfold inputDecimal at 1. rewrite E4, J.
  destruct (index 0 "." (currentInput (inputDecimal c))); [|contradiction].
  unfold inputDecimal.
  destruct (waitingForOperand c), (justCalculated c); reflexivity.
Qed.

Lemma inputDecimal_idempotent_witness :
  let c := run initial [Number D3; Action (Operator add)] in
  currentInput (inputDecimal c) = "0."
  /\ inputDecimal (inputDecimal c) = inputDecimal c.
Proof.
  intros c. split; [vm_compute; reflexivity|].
  apply (inputDecimal_idempotent c). reflexivity.
Defined.

(** ** Division by a zero however it is written *)

Lemma read_digits_zeros (k : nat) (t : string) (n : Z) :
  JS.read_digits (JS.zeros k ++ t) 0 n = JS.read_digits t 0 (n + Z.of_nat k).
Proof.
  revert n. induction k as [|k IH]; intros n.
  - simpl. rewrite Z.add_0_r. reflexivity.
  - change (JS.zeros (S k) ++ t) with (String "0" (JS.zeros k ++ t)).
    cbn [JS.read_digits]. change (JS.is_digit "0") with true. cbv iota.
    change (10 * 0 + JS.digit_val "0") with 0. rewrite IH. f_equal. lia.
Qed.

Lemma skip_spaces_zero (s : string) :
  JS.skip_spaces (String "0" s) = String "0" s.
Proof. destruct s as [|b [|c r]]; reflexivity. Qed.

Lemma parseFloat_zero_numeral (whole fraction : nat) (point : bool) :
  JS.parseFloat (zero_numeral whole fraction point) = S754_zero false.
Proof.
  unfold zero_numeral.
  change (JS.zeros (S whole) ++ (if point then "." ++ JS.zeros fraction else ""))
    with (String "0" (JS.zeros whole ++ (if point then "." ++ JS.zeros fraction else ""))).
  unfold JS.parseFloat. rewrite skip_spaces_zero. cbv iota.
  unfold JS.read_unsigned.
  change (prefix "Infinity" (String "0" ?x)) with false. cbv iota.
  cbn [JS.read_digits]. change (JS.is_digit "0") with true. cbv iota.
  change (10 * 0 + JS.digit_val "0") with 0.
  rewrite read_digits_zeros. destruct point.
  - change ("." ++ JS.zeros fraction) with (String "." (JS.zeros fraction)).
    cbn [JS.read_digits]. change (JS.is_digit ".") with false. cbv iota.
    rewrite <- (append_nil_r (JS.zeros fraction)), read_digits_zeros.
    cbn [JS.read_digits].
    destruct (0 + 1 + Z.of_nat whole + (0 + Z.of_nat fraction) =? 0) eqn:E;
      [apply Z.eqb_eq in E; lia|].
    unfold JS.of_decimal.
    destruct (0 <=? JS.read_exponent "" - (0 + Z.of_nat fraction)); reflexivity.
  - cbn [JS.read_digits].
    destruct (0 + 1 + Z.of_nat whole =? 0) eqn:E; [apply Z.eqb_eq in E; lia|].
    reflexivity.
Qed.

(** X9: a division by zero is caught however the zero is typed ("0",
    "00", "0.", "0.000"): with an operand pending for a division and such
    an input, [=] and any operator end in the error display. *)
Theorem division_by_typed_zero (c : Calculator) (whole fraction : nat) (point : bool) :
  evaluates c = true ->
  operator c = Some divide ->
  JS.isNaN (parseFloat (previousInput c)) = false ->
  currentInput c = zero_numeral whole fraction point ->
  calculate c = showError "Cannot divide by zero" c
  /\ forall op, handleOperator op c = showError "Cannot divide by zero" c.
Proof.
  intros V O P C.
  assert (D : divides_by_zero c = true).
  { unfold divides_by_zero. rewrite P, O. unfold parseFloat at 1 2.
    rewrite C, parseFloat_zero_numeral. reflexivity. }
  pose proof (divides_by_zero_fails c D) as F.
  pose proof (performCalculation_state c) as S. rewrite D in S.
  split.
  - rewrite (calculate_failed c V F). exact S.
  - intros op. rewrite (handleOperator_failed op c V F). exact S.
Qed.

Lemma division_by_typed_zero_witness :
  let c := run initial [Number D5; Action (Operator divide); Number D0;
                        Action Decimal; Number D0; Number D0] in
  currentInput c = "0.00"
  /\ calculate c = showError "Cannot divide by zero" c
  /\ forall op, handleOperator op c = showError "Cannot divide by zero" c.
Proof.
  intros c. split; [vm_compute; reflexivity|].
  apply (division_by_typed_zero c 0 2 true); vm_compute; reflexivity.
Defined.

(** ** The displays after an operator and after [=] *)

Lemma has_pending_evaluates (c : Calculator) :
  evaluates c = true -> has_pending c = true.
Proof. unfold evaluates. intros H. apply andb_prop in H. apply H. Qed.

(** X10: after a successful [=] the secondary display shows the
    expression, the two operands formatted around the symbol of the
    operator and followed by "=", and the primary display the formatted
    result; no timer is started. *)
Theorem calculate_displays_expression (c : Calculator) (r : JS.number) :
  evaluates c = true ->
  fst (performCalculation c) = Some r ->
  textContent (displaySecondary (calculate c))
  = formatNumber (previousInput c) ++ " " ++ getOperatorSymbol (operator c)
      ++ " " ++ formatNumber (VString (currentInput c)) ++ " ="
  /\ displayPrimary (calculate c) = mkElement (formatNumber (VString (JS.toString r))) false
  /\ timeouts (calculate c) = timeouts c.
Proof.
  intros V R. pose proof (has_pending_evaluates c V) as HP.
  unfold calculate. unfold evaluates in V. rewrite V.
  pose proof (performCalculation_success c) as S.
  destruct (performCalculation c) as [[r'|] c']; simpl in R; [|discriminate].
  inversion R; subst r'. rewrite (S c' r eq_refl).
  unfold updateSecondaryDisplay. rewrite HP. simpl. repeat split.
Qed.

Lemma calculate_displays_expression_witness :
  let c := run initial [Number D6; Action (Operator multiply); Number D7] in
  textContent (displaySecondary (calculate c)) = "6 × 7 ="
  /\ textContent (displayPrimary (calculate c)) = "42".
Proof.
  intros c.
  destruct (calculate_displays_expression c (JS.of_Z 42)) as (H1 & H2 & _).
  - vm_compute. reflexivity.
  - vm_compute. reflexivity.
  - rewrite H1, H2. split; vm_compute; reflexivity.
Defined.

(** X11: whenever [handleOperator] leaves the calculator waiting for an
    operand, the secondary display shows the formatted previous operand
    and the symbol of the new operator, and the primary display the
    formatted current input. *)
Theorem handleOperator_displays_pending (op : operator_name) (c : Calculator) :
  let c' := handleOperator op c in
  waitingForOperand c' = true ->
  operator c' = Some op
  /\ textContent (displaySecondary c')
     = formatNumber (previousInput c') ++ " " ++ getOperatorSymbol (Some op)
  /\ displayPrimary c' = mkElement (formatNumber (VString (currentInput c'))) false.
Proof.
  assert (U : forall c0, is_empty_string (previousInput c0) = false ->
    let c1 := updateDisplay (updateSecondaryDisplay false
                (set_justCalculated false (set_operator (Some op)
                   (set_waitingForOperand true c0)))) in
    operator c1 = Some op
    /\ textContent (displaySecondary c1)
       = formatNumber (previousInput c1) ++ " " ++ getOperatorSymbol (Some op)
    /\ displayPrimary c1 = mkElement (formatNumber (VString (currentInput c1))) false).
  { intros c0 P c1. unfold c1, updateSecondaryDisplay, has_pending. simpl.
    rewrite P. simpl. repeat split. }
  intros c'. unfold c', handleOperator.
  destruct (is_empty_string (previousInput c)) eqn:P; [intros _; apply U; reflexivity|].
  destruct (operator c) eqn:O; [|intros _; apply U; exact P].
  destruct (waitingForOperand c) eqn:W; [intros _; apply U; exact P|].
  simpl negb. cbv iota.
  pose proof (numeric_state_performCalculation c) as E.
  destruct (performCalculation c) as [[r|] c0]; simpl in E.
  - intros _. apply U. reflexivity.
  - apply numeric_state_fields in E. destruct E as (_ & _ & _ & E4 & _).
    rewrite E4, W. discriminate.
Qed.

Lemma handleOperator_displays_pending_witness :
  let c := run initial [Number D1; Number D2; Action (Operator subtract);
                        Number D5] in
  textContent (displaySecondary (handleOperator divide c)) = "7 ÷"
  /\ textContent (displayPrimary (handleOperator divide c)) = "7".
Proof.
  intros c.
  destruct (handleOperator_displays_pending divide c) as (_ & H2 & H3).
  - vm_compute. reflexivity.
  - rewrite H2, H3. split; vm_compute; reflexivity.
Defined.

(** ** Results that are exactly zero *)

Lemma sub_self (x : JS.number) :
  is_finite x = true -> JS.sub x x = S754_zero false.
Proof.
  destruct x as [s|s| |s m e]; try discriminate; intros _.
  - destruct s; reflexivity.
  - unfold JS.sub, SFsub. rewrite Z.sub_diag. reflexivity.
Qed.

Lemma mul_zero (x y : JS.number) :
  is_finite x = true -> JS.strict_eq y zero = true ->
  exists s, JS.mul x y = S754_zero s.
Proof.
  intros F Z.
  destruct x as [s|s| |s m e]; try discriminate F;
    destruct y as [t|t| |t n f]; try (destruct t; discriminate Z);
    try discriminate Z; eexists; reflexivity.
Qed.

Lemma round_1e8_zero (s : bool) : round_1e8 (S754_zero s) = S754_zero false.
Proof. destruct s; vm_compute; reflexivity. Qed.

(** X12: a finite number minus itself, and a finite number times zero,
    give exactly the number +0, which is shown as "0": the rounding adds
    nothing and no minus sign is left. *)
Theorem zero_results (c : Calculator) (x : JS.number) :
  parseFloat (previousInput c) = x ->
  is_finite x = true ->
  (operator c = Some subtract /\ parseFloat (VString (currentInput c)) = x)
  \/ (operator c = Some multiply
      /\ JS.strict_eq (parseFloat (VString (currentInput c))) zero = true) ->
  fst (performCalculation c) = Some (S754_zero false)
  /\ JS.toString (S754_zero false) = "0".
Proof.
  intros P F H. split; [|reflexivity].
  rewrite performCalculation_result.
  assert (N : JS.isNaN x = false) by (destruct x; (discriminate || reflexivity)).
  destruct H as [[O C] | [O C]].
  - unfold not_a_number, divides_by_zero, raw_result. rewrite P, C, N, O. simpl.
    rewrite (sub_self x F), round_1e8_zero. reflexivity.
  - assert (NC : JS.isNaN (parseFloat (VString (currentInput c))) = false).
    { destruct (parseFloat (VString (currentInput c))); (discriminate || reflexivity). }
    destruct (mul_zero x _ F C) as [s M].
    unfold not_a_number, divides_by_zero, raw_result. rewrite P, NC, N, O.
    cbn [orb negb andb]. rewrite M, round_1e8_zero. reflexivity.
Qed.

Lemma zero_results_witness :
  let c := run initial [Number D0; Action Decimal; Number D1;
                        Action (Operator subtract);
                        Number D0; Action Decimal; Number D1] in
  fst (performCalculation c) = Some (S754_zero false)
  /\ JS.toString (S754_zero false) = "0".
Proof.
  intros c. apply (zero_results c (JS.parseFloat "0.1")).
  - vm_compute. reflexivity.
  - vm_compute. reflexivity.
  - left. split; vm_compute; reflexivity.
Defined.

(** ** Buttons and keys *)

(** X13: every digit and every action of the calculator has a key and a
    button, and pressing either does what the event does: the digit keys
    and number buttons call [inputNumber], the keys [+ - * / . = c Escape
    Backspace] and the action buttons the action. *)
Theorem keys_and_buttons_agree (c : Calculator) :
  (forall d,
      after_key (handleKeyPress (digit_string d) c) = step c (Number d)
      /\ handleButtonClick (number_button d) c = step c (Number d))
  /\ (forall a,
      after_key (handleKeyPress (key_of_action a) c) = step c (Action a)
      /\ handleButtonClick (action_button a) c = step c (Action a))
  /\ after_key (handleKeyPress "Enter" c) = step c (Action Equals)
  /\ after_key (handleKeyPress "C" c) = step c (Action Clear).
Proof.
  split; [|split; [|split; reflexivity]].
  - intros d. destruct d; split; reflexivity.
  - intros a. destruct a as [[ | | | ]| | | | | ]; split; reflexivity.
Qed.

Lemma key_action_keys (key name : string) :
  key_action key = Some name ->
  In key ["+"; "-"; "*"; "/"; "."; "="; "Enter"; "Escape"; "Backspace"; "c"; "C"].
Proof.
  unfold key_action.
  repeat match goal with
    | |- context [(key =? ?k)%string] =>
        destruct (String.eqb_spec key k) as [->|_]; [simpl; tauto|]
    end.
  simpl. discriminate.
Qed.

Lemma matches_digit_calculator_char (key : string) :
  matches_digit key = true -> matches_calculator_char key = true.
Proof.
  induction key as [|a key IH]; simpl; [discriminate|].
  unfold calculator_char. destruct (JS.is_digit a); simpl; [reflexivity|].
  intros H. rewrite (IH H). apply orb_true_r.
Qed.

(** X14: [preventDefault] is called for every key the calculator reacts
    to, a key with a digit or a key of the [switch], except for the keys
    "c" and "C", whose default action is left alone. *)
Theorem default_prevented_for_handled_keys (key : string) (c : Calculator) :
  (matches_digit key = true \/ exists name, key_action key = Some name) ->
  key <> "c" -> key <> "C" ->
  default_prevented (handleKeyPress key c) = true.
Proof.
  intros H N1 N2.
  assert (P : matches_calculator_key key = true).
  { destruct H as [H | [name H]].
    - unfold matches_calculator_key. rewrite (matches_digit_calculator_char key H).
      reflexivity.
    - apply key_action_keys in H. simpl in H.
      repeat (destruct H as [<- | H]; [reflexivity || contradiction|]).
      destruct H. }
  unfold handleKeyPress.
  destruct (matches_digit key), (key_action key); exact P.
Qed.

Lemma default_prevented_for_handled_keys_witness :
  default_prevented (handleKeyPress "Backspace" initial) = true
  /\ default_prevented (handleKeyPress "c" initial) = false.
Proof.
  split; [|reflexivity].
  apply (default_prevented_for_handled_keys "Backspace" initial).
  - right. exists "backspace". reflexivity.
  - discriminate.
  - discriminate.
Defined.

Lemma matches_digit_no_action (key : string) :
  matches_digit key = true -> key_action key = None.
Proof.
  intros H. destruct (key_action key) as [name|] eqn:K; [|reflexivity].
  apply key_action_keys in K. simpl in K.
  repeat (destruct K as [<- | K]; [discriminate H|]). destruct K.
Qed.

(** X15: the test for a number key looks for a digit anywhere in the
    name of the key, so a key such as "F5" is given whole to
    [inputNumber]: it replaces the input or is appended to it like a
    digit, and no action follows. *)
Theorem key_with_digit_is_input (key : string) (c : Calculator) :
  matches_digit key = true ->
  after_key (handleKeyPress key c) = inputNumber key c
  /\ highlighted (handleKeyPress key c) = [by_number key]
  /\ currentInput (after_key (handleKeyPress key c))
     = (if waitingForOperand c || justCalculated c then key
        else if (currentInput c =? "0")%string then key
             else currentInput c ++ key).
Proof.
  intros H.
  assert (E : handleKeyPress key c
              = mkOutcome (inputNumber key c) (matches_calculator_key key)
                  [by_number key]).
  { unfold handleKeyPress. rewrite H, (matches_digit_no_action key H). reflexivity. }
  rewrite E. simpl after_key. simpl highlighted. repeat split.
  pose proof (numeric_state_inputNumber key c) as I.
  apply numeric_state_fields in I. apply I.
Qed.

Lemma key_with_digit_is_input_witness :
  let c := run initial [Number D7] in
  currentInput (after_key (handleKeyPress "F5" c)) = "7F5"
  /\ unsigned_numeral (currentInput (after_key (handleKeyPress "F5" c))) = false.
Proof.
  intros c.
  destruct (key_with_digit_is_input "F5" c) as (_ & _ & H); [reflexivity|].
  rewrite H. split; vm_compute; reflexivity.
Defined.

(** X16: a button is served by its [data-number] whenever it has one,
    even an empty one, and before its action; an empty number empties
    the input where a digit would replace it (the calculator waiting for
    an operand or just having calculated, or the input being "0") and
    leaves it alone otherwise, the display showing "0" for the empty
    input. *)
Theorem button_with_empty_number (name : option string) (c : Calculator) :
  let c' := handleButtonClick (mkButton (Some "") name) c in
  currentInput c'
  = (if waitingForOperand c || justCalculated c || (currentInput c =? "0")%string
     then "" else currentInput c)
  /\ (currentInput c' = "" -> displayPrimary c' = mkElement "0" false).
Proof.
  intros c'. unfold c', handleButtonClick. simpl dataset_number. cbv iota.
  pose proof (numeric_state_inputNumber "" c) as I.
  apply numeric_state_fields in I. destruct I as (I1 & _).
  split.
  - rewrite I1. destruct (waitingForOperand c || justCalculated c); [reflexivity|].
    simpl. destruct (currentInput c =? "0")%string; [reflexivity|].
    apply append_nil_r.
  - intros E. unfold inputNumber in *.
    destruct (waitingForOperand c), (justCalculated c);
      unfold updateDisplay in *; simpl in *; try rewrite E; reflexivity.
Qed.

Lemma button_with_empty_number_witness :
  let c := run initial [Number D4; Action (Operator add)] in
  let c' := handleButtonClick (mkButton (Some "") (Some "equals")) c in
  currentInput c' = "" /\ displayPrimary c' = mkElement "0" false.
Proof.
  intros c c'.
  destruct (button_with_empty_number (Some "equals") c) as (H1 & H2).
  fold c' in H1, H2. split; [rewrite H1; reflexivity|].
  apply H2. rewrite H1. reflexivity.
Defined.

(** ** What the secondary display shows *)

Lemma secondary_consistent_fields (t : string) (c c' : Calculator) :
  displaySecondary c' = displaySecondary c ->
  previousInput c' = previousInput c -> operator c' = operator c ->
  justCalculated c' = justCalculated c ->
  secondary_consistent t c -> secondary_consistent t c'.
Proof.
  intros E1 E2 E3 E4. unfold secondary_consistent. rewrite E1, E2, E3, E4. tauto.
Qed.

Lemma secondary_consistent_cleared (t : string) (c : Calculator) :
  justCalculated c = false -> operator c = None ->
  textContent (displaySecondary c) = "" -> secondary_consistent t c.
Proof.
  intros J O E. unfold secondary_consistent. rewrite J, O. left. exact E.
Qed.

Lemma secondary_consistent_flags (t : string) (c : Calculator) :
  secondary_consistent t c -> justCalculated c = true -> operator c = None.
Proof. unfold secondary_consistent. intros H J. rewrite J in H. apply H. Qed.

Lemma secondary_consistent_inputNumber (t d : string) (c : Calculator) :
  waitingForOperand c && justCalculated c = false ->
  secondary_consistent t c -> secondary_consistent t (inputNumber d c).
Proof.
  intros F H. unfold inputNumber.
  destruct (waitingForOperand c) eqn:W.
  - simpl in F. apply (secondary_consistent_fields t c); try reflexivity. exact H.
  - destruct (justCalculated c) eqn:J.
    + apply secondary_consistent_cleared; try reflexivity.
      simpl. exact (secondary_consistent_flags t c H J).
    + apply (secondary_consistent_fields t c); try reflexivity. exact H.
Qed.

Lemma secondary_consistent_inputDecimal (t : string) (c : Calculator) :
  waitingForOperand c && justCalculated c = false ->
  secondary_consistent t c -> secondary_consistent t (inputDecimal c).
Proof.
  intros F H. unfold inputDecimal.
  destruct (waitingForOperand c) eqn:W.
  - simpl in F. apply (secondary_consistent_fields t c); try reflexivity. exact H.
  - destruct (justCalculated c) eqn:J.
    + apply secondary_consistent_cleared; try reflexivity.
      simpl. exact (secondary_consistent_flags t c H J).
    + destruct (index 0 "." (currentInput c));
        apply (secondary_consistent_fields t c); try reflexivity; exact H.
Qed.

Lemma secondary_consistent_showError (t : string) (c : Calculator) :
  evaluates c = true ->
  secondary_consistent t c ->
  secondary_consistent t (showError "Cannot divide by zero" c).
Proof.
  intros V H. destruct (evaluates_inv c V) as (P & (o & O) & _).
  unfold secondary_consistent in *. simpl.
  destruct (justCalculated c); [destruct H as [H _]; congruence|].
  rewrite O in *. split; [apply H | right; reflexivity].
Qed.

Lemma secondary_consistent_handleOperator (t : string) (op : operator_name) (c : Calculator) :
  secondary_consistent t c -> secondary_consistent t (handleOperator op c).
Proof.
  intros H.
  assert (U : forall c0, is_empty_string (previousInput c0) = false ->
    secondary_consistent t
      (updateDisplay (updateSecondaryDisplay false
         (set_justCalculated false (set_operator (Some op)
            (set_waitingForOperand true c0))))) ).
  { intros c0 P. unfold secondary_consistent, updateSecondaryDisplay, has_pending.
    simpl. rewrite P. simpl. split; [|left; reflexivity].
    intros E. rewrite E in P. discriminate. }
  unfold handleOperator.
  destruct (is_empty_string (previousInput c)) eqn:P; [apply U; reflexivity|].
  destruct (operator c) eqn:O; [|apply U; exact P].
  destruct (waitingForOperand c) eqn:W; [apply U; exact P|].
  simpl negb. cbv iota.
  assert (V : evaluates c = true).
  { unfold evaluates, has_pending. rewrite O, P, W. reflexivity. }
  pose proof (performCalculation_state c) as E.
  destruct (performCalculation c) as [[r|] c0]; simpl in E.
  - apply U. reflexivity.
  - subst c0. destruct (divides_by_zero c); [|exact H].
    apply secondary_consistent_showError; assumption.
Qed.

Lemma secondary_consistent_calculate (t : string) (c : Calculator) :
  secondary_consistent t c -> secondary_consistent t (calculate c).
Proof.
  intros H. unfold calculate.
  destruct (has_pending c && negb (waitingForOperand c)) eqn:V; [|exact H].
  pose proof (has_pending_evaluates c V) as HP.
  pose proof (performCalculation_state c) as E.
  pose proof (performCalculation_success c) as S.
  destruct (performCalculation c) as [[r|] c0]; simpl in E.
  - rewrite (S c0 r eq_refl). unfold secondary_consistent, updateSecondaryDisplay.
    rewrite HP. simpl. split; [reflexivity|].
    unfold has_pending in HP. destruct (operator c) as [o|]; [|discriminate].
    exists (previousInput c), o, (currentInput c). reflexivity.
  - subst c0. destruct (divides_by_zero c); [|exact H].
    apply secondary_consistent_showError; assumption.
Qed.

Lemma secondary_consistent_clearAll (t : string) (c : Calculator) :
  secondary_consistent t (clearAll c).
Proof. apply secondary_consistent_cleared; reflexivity. Qed.

Lemma secondary_consistent_step (t : string) (c : Calculator) (e : event) :
  waitingForOperand c && justCalculated c = false ->
  secondary_consistent t c -> secondary_consistent t (step c e).
Proof.
  intros F H. destruct e as [d|a|]; simpl.
  - apply secondary_consistent_inputNumber; assumption.
  - destruct a; simpl.
    + apply secondary_consistent_handleOperator. exact H.
    + apply secondary_consistent_calculate. exact H.
    + apply secondary_consistent_inputDecimal; assumption.
    + apply (secondary_consistent_fields t c); try reflexivity. exact H.
    + apply secondary_consistent_clearAll.
    + unfold backspace. destruct (justCalculated c) eqn:J; [exact H|].
      destruct (1 <? String.length (currentInput c))%nat;
        apply (secondary_consistent_fields t c); try reflexivity; exact H.
  - destruct (timeouts c); [exact H | apply secondary_consistent_clearAll].
Qed.

Lemma flags_exclusive (c : Calculator) :
  pending_consistent c -> waitingForOperand c && justCalculated c = false.
Proof.
  intros (_ & _ & _ & H). destruct (justCalculated c).
  - rewrite (H eq_refl). reflexivity.
  - apply andb_false_r.
Qed.

Lemma run_invariant_from (P : Calculator -> Prop) (c : Calculator) :
  P c -> (forall c e, P c -> P (step c e)) ->
  forall events, P (run c events).
Proof.
  intros Hc Hstep events.
  induction events as [|e events IH] using rev_ind; [exact Hc|].
  rewrite run_snoc. apply Hstep. exact IH.
Qed.

(** X17: in every reachable state the secondary display shows, after
    [=], an expression "a op b ="; with an operator pending, the formatted
    previous operand and the symbol of that operator, or the message
    "Cannot divide by zero"; and otherwise nothing, or the text it had in
    the page. *)
Theorem secondary_display_reachable
    (primary secondary : element) (events : list event) :
  secondary_consistent (textContent secondary)
    (run (constructor primary secondary) events).
Proof.
  assert (H : pending_consistent (run (constructor primary secondary) events)
              /\ secondary_consistent (textContent secondary)
                   (run (constructor primary secondary) events)).
  { apply (run_invariant_from
             (fun c => pending_consistent c
                       /\ secondary_consistent (textContent secondary) c)).
    - split.
      + unfold pending_consistent. simpl. repeat split; try discriminate.
        left. reflexivity.
      + unfold secondary_consistent. simpl. right. reflexivity.
    - intros c e [P S]. split.
      + apply pending_consistent_step. exact P.
      + apply secondary_consistent_step; [apply flags_exclusive|]; assumption. }
  apply H.
Qed.
